(** * chemprop/models/model.py: assembly of the molecule model

    A shallow embedding of [MoleculeModel] (constructor, [create_encoder],
    [create_ffn], [forward]) and of [build_model], followed by the
    properties of the feed-forward head and of the forward pass.

    Python integers are modelled by [Z], the dropout probability (a float
    handed unchanged to [nn.Dropout]) by [Q], strings by [string].  Module
    objects of the numeric framework carry an object identity, because the
    source stores ONE dropout object and ONE activation object at several
    positions of the head, and [nn.Module.children] enumerates distinct
    objects only.

    Construction runs in a state monad that hands out object identities and
    logs the calls that leave this file ([MPN], [get_activation_function],
    [initialize_weights], [print]).  The constructors of the framework are
    recorded with their arguments; the checks they make on those arguments
    are theirs and are not modelled.  What a module computes is a parameter
    of the forward pass (class [Torch]); it is read as a log of calls, as
    widths, as real numbers, or as single integers. *)

From Stdlib Require Import String List ZArith QArith Bool Lia Reals Lra.
Import ListNotations.
Open Scope Z_scope.

(** ** The configuration ([argparse.Namespace]) *)

Module Args.

(** [confidence] is [None] when the option was not given. *)
Record t := mk {
  hidden_size : Z;
  use_input_features : bool;
  features_dim : Z;
  dropout : Q;
  activation : string;
  output_size : Z;
  num_tasks : Z;
  ffn_num_layers : Z;
  ffn_hidden_size : Z;
  last_hidden_size : Z;
  dataset_type : string;
  confidence : option string
}.

(** [args.output_size = v] *)
Definition set_output_size (v : Z) (a : t) : t :=
  mk (hidden_size a) (use_input_features a) (features_dim a) (dropout a)
     (activation a) v (num_tasks a) (ffn_num_layers a) (ffn_hidden_size a)
     (last_hidden_size a) (dataset_type a) (confidence a).

End Args.

(** [x == lit] for a value that is a string or [None]. *)
Definition py_eq (x : option string) (lit : string) : bool :=
  match x with
  | Some s => String.eqb s lit
  | None => false
  end.

(** [str(x)], what [print(x)] writes. *)
Definition py_str (x : option string) : string :=
  match x with
  | Some s => s
  | None => "None"
  end.

(** ** Module objects of the framework *)

(** What a module object is.  [Activation name] is the object returned by
    [get_activation_function(name)] and [MPN a] the encoder built by
    [MPN(a)]; both constructors live outside this file and are kept
    symbolic. *)
Inductive Kind :=
| Dropout (p : Q)
| Linear (in_features out_features : Z)
| Activation (name : string)
| Sigmoid
| MPN (a : Args.t).

(** A module object: its identity and what it is. *)
Record NNModule := { oid : nat; kind : Kind }.

(** [nn.Sequential]: the registered modules, in registration order (the
    same object may be registered under several indices). *)
Definition Sequential := list NNModule.

(** [nn.Module.named_children]: walks the registered modules with a [memo]
    set and yields a module only the first time its object is met. *)
Fixpoint children_from (memo : list nat) (l : list NNModule) : list NNModule :=
  match l with
  | [] => []
  | m :: rest =>
      if existsb (Nat.eqb (oid m)) memo
      then children_from memo rest
      else m :: children_from (oid m :: memo) rest
  end.

Definition children (s : Sequential) : list NNModule := children_from [] s.

(** ** The model object *)

Record MoleculeModel := {
  classification : bool;
  confidence : bool;
  sigmoid : option NNModule;
  use_last_hidden : bool;
  training : bool;
  encoder : option NNModule;
  ffn : option Sequential
}.

Definition set_encoder (e : NNModule) (self : MoleculeModel) : MoleculeModel :=
  {| classification := classification self; confidence := confidence self;
     sigmoid := sigmoid self; use_last_hidden := use_last_hidden self;
     training := training self; encoder := Some e; ffn := ffn self |}.

Definition set_ffn (s : Sequential) (self : MoleculeModel) : MoleculeModel :=
  {| classification := classification self; confidence := confidence self;
     sigmoid := sigmoid self; use_last_hidden := use_last_hidden self;
     training := training self; encoder := encoder self; ffn := Some s |}.

(** [self.use_last_hidden = b], the flag callers toggle. *)
Definition set_use_last_hidden (b : bool) (self : MoleculeModel) : MoleculeModel :=
  {| classification := classification self; confidence := confidence self;
     sigmoid := sigmoid self; use_last_hidden := b;
     training := training self; encoder := encoder self; ffn := ffn self |}.

(** [self.train(mode)]; [self.eval()] is [train false]. *)
Definition train (mode : bool) (self : MoleculeModel) : MoleculeModel :=
  {| classification := classification self; confidence := confidence self;
     sigmoid := sigmoid self; use_last_hidden := use_last_hidden self;
     training := mode; encoder := encoder self; ffn := ffn self |}.

(** ** Effects of construction: object allocation and outside calls *)

Inductive Event :=
| Call_print (s : string)
| Call_MPN (a : Args.t)
| Call_get_activation_function (name : string)
| Call_initialize_weights (model : MoleculeModel).

Record World := { next_id : nat; trace : list Event }.

Definition M (A : Type) : Type := World -> A * World.

Definition ret {A} (a : A) : M A := fun w => (a, w).

Definition bind {A B} (c : M A) (k : A -> M B) : M B :=
  fun w => let (a, w') := c w in k a w'.

Notation "x <- c ;; k" := (bind c (fun x => k))
  (at level 61, c at next level, right associativity).
Notation "c ;; k" := (bind c (fun _ => k))
  (at level 61, right associativity).

(** A fresh module object of kind [k]. *)
Definition new (k : Kind) : M NNModule :=
  fun w => ({| oid := next_id w; kind := k |},
            {| next_id := S (next_id w); trace := trace w |}).

Definition emit (e : Event) : M unit :=
  fun w => (tt, {| next_id := next_id w; trace := trace w ++ [e] |}).

(** [print(x)] *)
Definition print (x : option string) : M unit := emit (Call_print (py_str x)).

(** [range(n)] *)
Definition range (n : Z) : list Z := map Z.of_nat (seq 0 (Z.to_nat n)).

(** [for x in xs: acc = body x acc] *)
Fixpoint for_each {A S} (xs : list A) (body : A -> S -> M S) (acc : S) : M S :=
  match xs with
  | [] => ret acc
  | x :: rest => acc' <- body x acc ;; for_each rest body acc'
  end.

(** The constructors of the framework and the two helpers imported from
    the rest of the package. *)
Definition nn_Dropout (p : Q) : M NNModule := new (Dropout p).
Definition nn_Linear (i o : Z) : M NNModule := new (Linear i o).
Definition nn_Sigmoid : M NNModule := new Sigmoid.
Definition nn_Sequential (l : list NNModule) : Sequential := l.

Definition get_activation_function (name : string) : M NNModule :=
  emit (Call_get_activation_function name) ;; new (Activation name).

Definition new_MPN (a : Args.t) : M NNModule :=
  emit (Call_MPN a) ;; new (MPN a).

(** [initialize_weights(model)] rewrites parameter values only; the layout
    of the model is untouched, so the call is recorded and the model passes
    through. *)
Definition initialize_weights (model : MoleculeModel) : M unit :=
  emit (Call_initialize_weights model).

(** ** [MoleculeModel.__init__] *)

(** [nn.Module.__init__] leaves a new module in training mode. *)
Definition __init__ (classification0 confidence0 : bool) : M MoleculeModel :=
  sg <- (if classification0
         then (s <- nn_Sigmoid ;; ret (Some s))
         else ret None) ;;
  ret {| classification := classification0; confidence := confidence0;
         sigmoid := sg; use_last_hidden := true; training := true;
         encoder := None; ffn := None |}.

(** ** [MoleculeModel.create_encoder] *)

Definition create_encoder (self : MoleculeModel) (args : Args.t) : M MoleculeModel :=
  e <- new_MPN args ;;
  ret (set_encoder e self).

(** ** [MoleculeModel.create_ffn] *)

(** Lines 44 to 46: the input width of the head. *)
Definition first_linear_dim (args : Args.t) : Z :=
  let first_linear_dim := Args.hidden_size args in
  if Args.use_input_features args
  then first_linear_dim + Args.features_dim args
  else first_linear_dim.

(** Lines 51 to 54: the output width of the head. *)
Definition head_output_size (self : MoleculeModel) (args : Args.t) : Z :=
  let output_size := Args.output_size args in
  if confidence self then output_size * 2 else output_size.

Definition create_ffn (self : MoleculeModel) (args : Args.t) : M MoleculeModel :=
  let first_linear_dim := first_linear_dim args in
  dropout <- nn_Dropout (Args.dropout args) ;;
  activation <- get_activation_function (Args.activation args) ;;
  let output_size := head_output_size self args in
  ffn <- (if Args.ffn_num_layers args =? 1
          then
            l <- nn_Linear first_linear_dim output_size ;;
            ret [dropout; l]
          else
            l <- nn_Linear first_linear_dim (Args.ffn_hidden_size args) ;;
            ffn <- for_each (range (Args.ffn_num_layers args - 3))
                     (fun _ ffn =>
                        l <- nn_Linear (Args.ffn_hidden_size args)
                                       (Args.ffn_hidden_size args) ;;
                        ret (ffn ++ [activation; dropout; l]))
                     [dropout; l] ;;
            l <- nn_Linear (Args.ffn_hidden_size args)
                           (Args.last_hidden_size args) ;;
            let ffn := ffn ++ [activation; dropout; l] in
            l <- nn_Linear (Args.last_hidden_size args) output_size ;;
            let ffn := ffn ++ [activation; dropout; l] in
            ret ffn) ;;
  ret (set_ffn (nn_Sequential ffn) self).

(** ** [build_model] *)

(** Returns the model together with the configuration object as the call
    leaves it (the caller's [args] is mutated in place). *)
Definition build_model (args : Args.t) : M (MoleculeModel * Args.t) :=
  let output_size := Args.num_tasks args in
  let args := Args.set_output_size output_size args in
  let is_classifier := String.eqb (Args.dataset_type args) "classification" in
  model <- (if py_eq (Args.confidence args) "nn"
            then print (Args.confidence args) ;; __init__ is_classifier true
            else __init__ is_classifier false) ;;
  model <- create_encoder model args ;;
  model <- create_ffn model args ;;
  initialize_weights model ;;
  ret (model, args).

(** ** Calling modules *)

(** What a call can raise: a missing attribute of the model, or an error of
    the framework (a dimension mismatch, an object called on an input it
    does not accept). *)
Inductive result (A : Type) :=
| Ok (a : A)
| AttributeError (name : string)
| RuntimeError.
Arguments Ok {A} a.
Arguments AttributeError {A} name.
Arguments RuntimeError {A}.

Definition rbind {A B} (r : result A) (k : A -> result B) : result B :=
  match r with
  | Ok a => k a
  | AttributeError n => AttributeError n
  | RuntimeError => RuntimeError
  end.

Notation "x <~ r ;; k" := (rbind r (fun x => k))
  (at level 61, r at next level, right associativity).

(** [self.name] for an attribute that is set by a later method. *)
Definition getattr {A} (name : string) (field : option A) : result A :=
  match field with
  | Some a => Ok a
  | None => AttributeError name
  end.

(** The numeric framework, seen from this file: what calling the encoder on
    the raw input gives, and what calling a module object on a tensor gives.
    The first argument is the training mode of the model. *)
Class Torch (Input Tensor : Type) := {
  encoder_call : bool -> NNModule -> Input -> result Tensor;
  module_call : bool -> NNModule -> Tensor -> result Tensor
}.

Section Forward.
Context {Input Tensor : Type} {T : Torch Input Tensor}.

(** [nn.Sequential.forward]: every registered module in order, repeated
    objects included. *)
Fixpoint Sequential_call (mode : bool) (s : Sequential) (x : Tensor)
  : result Tensor :=
  match s with
  | [] => Ok x
  | m :: rest => y <~ module_call mode m x ;; Sequential_call mode rest y
  end.

(** The network [forward] runs: [self.ffn], or a new [nn.Sequential] over
    [list(self.ffn.children())[:-1]]. *)
Definition forward_ffn (self : MoleculeModel) : result Sequential :=
  ffn0 <~ getattr "ffn" (ffn self) ;;
  Ok (if use_last_hidden self
      then ffn0
      else nn_Sequential (removelast (children ffn0))).

(** [MoleculeModel.forward] *)
Definition forward (self : MoleculeModel) (input : Input) : result Tensor :=
  ffn <~ forward_ffn self ;;
  enc <~ getattr "encoder" (encoder self) ;;
  hidden <~ encoder_call (training self) enc input ;;
  output <~ Sequential_call (training self) ffn hidden ;;
  if classification self && negb (training self) && use_last_hidden self
  then
    sg <~ getattr "sigmoid" (sigmoid self) ;;
    module_call (training self) sg output
  else Ok output.
(** Lines 96 to 98 alone: what the chosen network returns on the encoder's
    output, before the test for the sigmoid. *)
Definition head_output (self : MoleculeModel) (input : Input) : result Tensor :=
  ffn <~ forward_ffn self ;;
  enc <~ getattr "encoder" (encoder self) ;;
  hidden <~ encoder_call (training self) enc input ;;
  Sequential_call (training self) ffn hidden.

End Forward.

(** ** Three readings of the framework *)

(** The calls themselves: a tensor is the list of objects it went through. *)
Definition CallLog : Torch unit (list NNModule) :=
  {| encoder_call := fun _ e _ => Ok [e];
     module_call := fun _ m t => Ok (t ++ [m]) |}.

(** Widths: a tensor is the size of its last dimension.  Dropout, the
    activation and the sigmoid are elementwise; a linear transform accepts
    its input width only.  The width the encoder produces is a parameter. *)
Definition width_call (m : NNModule) (w : Z) : result Z :=
  match kind m with
  | Dropout _ | Activation _ | Sigmoid => Ok w
  | Linear i o => if w =? i then Ok o else RuntimeError
  | MPN _ => RuntimeError
  end.

Definition Widths (Input : Type) (enc_width : NNModule -> Input -> result Z)
  : Torch Input Z :=
  {| encoder_call := fun _ e x => enc_width e x;
     module_call := fun _ m w => width_call m w |}.

(** Values: a tensor is the list of its elements.  [nn.Sigmoid] is
    [1 / (1 + exp (-x))] on every element; the encoder and every other
    module are parameters. *)
Definition sigmoid_fn (x : R) : R := (1 / (1 + exp (- x)))%R.

Definition Values (Input : Type)
    (enc : bool -> NNModule -> Input -> result (list R))
    (call : bool -> NNModule -> list R -> result (list R))
  : Torch Input (list R) :=
  {| encoder_call := enc;
     module_call := fun mode m t =>
       match kind m with
       | Sigmoid => Ok (map sigmoid_fn t)
       | _ => call mode m t
       end |}.

(** One number per tensor, for evaluating a head by hand: every linear
    transform is [x |-> - x - 1], the activation is the rectifier, dropout
    with probability zero changes nothing, the encoder hands its input on. *)
Definition Scalars : Torch Z Z :=
  {| encoder_call := fun _ _ x => Ok x;
     module_call := fun _ m x =>
       match kind m with
       | Dropout _ => Ok x
       | Linear _ _ => Ok (- x - 1)
       | Activation _ => Ok (Z.max 0 x)
       | Sigmoid | MPN _ => RuntimeError
       end |}.

(** ** Reading a head *)

Definition is_linear (m : NNModule) : bool :=
  match kind m with Linear _ _ => true | _ => false end.

(** The linear transforms of a head, as (input width, output width). *)
Fixpoint linear_shapes (s : list NNModule) : list (Z * Z) :=
  match s with
  | [] => []
  | m :: rest =>
      match kind m with
      | Linear i o => (i, o) :: linear_shapes rest
      | _ => linear_shapes rest
      end
  end.

Definition is_sigmoid (m : NNModule) : bool :=
  match kind m with Sigmoid => true | _ => false end.

(** A head cut into stages, each ending with its linear transform; what
    follows the last linear transform, if anything, is a stage of its own. *)
Fixpoint stages_from (cur : list NNModule) (s : list NNModule)
  : list (list NNModule) :=
  match s with
  | [] => match cur with [] => [] | _ => [cur] end
  | m :: rest =>
      if is_linear m
      then (cur ++ [m]) :: stages_from [] rest
      else stages_from (cur ++ [m]) rest
  end.

Definition stages (s : list NNModule) : list (list NNModule) := stages_from [] s.

(** The stages strictly between the first one and the last two. *)
Definition interior_stages (s : list NNModule) : list (list NNModule) :=
  removelast (removelast (tl (stages s))).

(** ** The head in closed form *)

Definition linear_at (id : nat) (i o : Z) : NNModule :=
  {| oid := id; kind := Linear i o |}.

(** The head [create_ffn] leaves when the next free identity is [n]: the
    dropout object is [n], the activation object [n + 1], and the linear
    transforms follow in the order they are made. *)
Definition head_layout (n : nat) (self : MoleculeModel) (args : Args.t)
  : list NNModule :=
  let d := {| oid := n; kind := Dropout (Args.dropout args) |} in
  let a := {| oid := S n; kind := Activation (Args.activation args) |} in
  let h := Args.ffn_hidden_size args in
  let k := Z.to_nat (Args.ffn_num_layers args - 3) in
  if Args.ffn_num_layers args =? 1
  then [d; linear_at (n + 2) (first_linear_dim args) (head_output_size self args)]
  else
    [d; linear_at (n + 2) (first_linear_dim args) h]
    ++ flat_map (fun i => [a; d; linear_at i h h]) (seq (n + 3) k)
    ++ [a; d; linear_at (n + 3 + k) h (Args.last_hidden_size args)]
    ++ [a; d; linear_at (n + 4 + k) (Args.last_hidden_size args)
                        (head_output_size self args)].

(** The linear transforms that follow the first one, in order. *)
Definition later_linears (n : nat) (self : MoleculeModel) (args : Args.t)
  : list NNModule :=
  let h := Args.ffn_hidden_size args in
  let k := Z.to_nat (Args.ffn_num_layers args - 3) in
  map (fun i => linear_at i h h) (seq (n + 3) k)
  ++ [linear_at (n + 3 + k) h (Args.last_hidden_size args);
      linear_at (n + 4 + k) (Args.last_hidden_size args)
                (head_output_size self args)].

(** Dropout, the activation and the sigmoid act on every element alone. *)
Definition elementwise (m : NNModule) : bool :=
  match kind m with
  | Dropout _ | Activation _ | Sigmoid => true
  | Linear _ _ | MPN _ => false
  end.

(** How many objects [create_ffn] makes. *)
Definition ffn_allocations (args : Args.t) : nat :=
  if Args.ffn_num_layers args =? 1
  then 3%nat
  else (5 + Z.to_nat (Args.ffn_num_layers args - 3))%nat.

(** The model [build_model] returns when the next free identity is [n]: the
    sigmoid object (a classifier has one) comes first, then the encoder,
    then the objects of the head. *)
Definition built_model (n : nat) (args : Args.t) : MoleculeModel :=
  let args' := Args.set_output_size (Args.num_tasks args) args in
  let cls := String.eqb (Args.dataset_type args) "classification" in
  let conf := py_eq (Args.confidence args) "nn" in
  let n1 := if cls then S n else n in
  let m0 := {| classification := cls; confidence := conf;
               sigmoid := if cls then Some {| oid := n; kind := Sigmoid |}
                          else None;
               use_last_hidden := true; training := true;
               encoder := Some {| oid := n1; kind := MPN args' |};
               ffn := None |} in
  set_ffn (head_layout (S n1) m0 args') m0.

(** ** Sample configurations *)

Definition empty_world : World := {| next_id := O; trace := [] |}.

(** The configuration of the documented example. *)
Definition example_args : Args.t :=
  Args.mk 300 false 0 0%Q "ReLU" 1 1 2 300 300 "regression" None.

(** A four-layer classifier with widths small enough to evaluate by hand. *)
Definition small_args : Args.t :=
  Args.mk 1 false 0 0%Q "ReLU" 1 1 4 1 1 "classification" None.

(** A one-layer classifier with external features and confidence output. *)
Definition one_layer_args : Args.t :=
  Args.mk 5 true 2 0%Q "ReLU" 3 3 1 7 9 "classification" (Some "nn"%string).

(** A configuration that asks for no layer at all, with distinct widths. *)
Definition zero_layer_args : Args.t :=
  Args.mk 4 false 0 0%Q "ReLU" 2 2 0 5 6 "regression" None.

(** A three-layer regression model with features and confidence output. *)
Definition three_layer_args : Args.t :=
  Args.mk 4 true 3 (1 # 10) "tanh" 9 2 3 5 6 "regression" (Some "nn"%string).

(** ** The objects of a model *)

Definition option_list {A} (o : option A) : list A :=
  match o with
  | Some a => [a]
  | None => []
  end.

(** Every module object a model holds: the sigmoid, the encoder and the
    modules registered in the head. *)
Definition modules_of (self : MoleculeModel) : list NNModule :=
  option_list (sigmoid self) ++ option_list (encoder self)
  ++ match ffn self with
     | Some s => s
     | None => []
     end.

(** ** Proof steps *)

(** Settles [Forall P [x1; ...; xn]] when every [P xi] is arithmetic. *)
Ltac forall_cons :=
  repeat (apply Forall_cons; [cbn; try reflexivity; try lia|]);
  apply Forall_nil.

(** * Properties *)

(** ** The construction monad *)

Lemma bind_run {A B} (c : M A) (k : A -> M B) (w : World) (a : A) (w' : World) :
  c w = (a, w') -> bind c k w = k a w'.
Proof. intros H. unfold bind. now rewrite H. Qed.

Lemma range_length (n : Z) : length (range n) = Z.to_nat n.
Proof. unfold range. now rewrite length_map, length_seq. Qed.

(** The loop of [create_ffn]: every round makes one linear transform and
    appends the shared activation, the shared dropout and that transform. *)
Lemma interior_loop (a d : NNModule) (h : Z) (xs : list Z) :
  forall (acc : list NNModule) (w : World),
    for_each xs
      (fun _ ffn => l <- nn_Linear h h ;; ret (ffn ++ [a; d; l])) acc w
    = (acc ++ flat_map (fun i => [a; d; linear_at i h h])
                       (seq (next_id w) (length xs)),
       {| next_id := (next_id w + length xs)%nat; trace := trace w |}).
Proof.
  induction xs as [|x xs IH]; intros acc w.
  - cbn. rewrite app_nil_r, Nat.add_0_r. now destruct w.
  - cbn [for_each length seq flat_map].
    erewrite bind_run by reflexivity.
    rewrite IH. cbn [next_id trace].
    rewrite <- app_assoc. f_equal. f_equal. lia.
Qed.

(** ** [create_ffn] in closed form *)

Lemma create_ffn_run (self : MoleculeModel) (args : Args.t) (w : World) :
  create_ffn self args w
  = (set_ffn (head_layout (next_id w) self args) self,
     {| next_id := (next_id w + ffn_allocations args)%nat;
        trace := trace w
                 ++ [Call_get_activation_function (Args.activation args)] |}).
Proof.
  unfold create_ffn, head_layout, ffn_allocations.
  destruct (Args.ffn_num_layers args =? 1) eqn:E.
  - cbn. unfold ret, nn_Sequential, linear_at.
    now rewrite ?Nat.add_succ_r, ?Nat.add_0_r.
  - unfold bind at 1. cbn [nn_Dropout new].
    unfold bind at 1. unfold get_activation_function, bind at 1, emit, new.
    cbn [next_id trace].
    unfold bind at 1. unfold bind at 1. cbn [nn_Linear new next_id trace].
    unfold bind at 1. rewrite interior_loop. cbn [next_id trace].
    rewrite range_length.
    cbn. unfold ret, nn_Sequential, linear_at.
    rewrite ?Nat.add_succ_r, ?Nat.add_0_r, <- ?app_assoc. cbn.
    reflexivity.
Qed.

(** ** [build_model] in closed form *)

Lemma build_model_run (args : Args.t) (w : World) :
  build_model args w
  = (built_model (next_id w) args,
     Args.set_output_size (Args.num_tasks args) args,
     {| next_id := ((if String.eqb (Args.dataset_type args) "classification"
                     then 2 else 1) + next_id w
                    + ffn_allocations
                        (Args.set_output_size (Args.num_tasks args) args))%nat;
        trace := trace w
                 ++ (if py_eq (Args.confidence args) "nn"
                     then [Call_print (py_str (Args.confidence args))]
                     else [])
                 ++ [Call_MPN (Args.set_output_size (Args.num_tasks args) args);
                     Call_get_activation_function (Args.activation args);
                     Call_initialize_weights (built_model (next_id w) args)] |}).
Proof.
  unfold build_model, built_model.
  set (args' := Args.set_output_size (Args.num_tasks args) args).
  change (Args.dataset_type args') with (Args.dataset_type args).
  change (Args.confidence args') with (Args.confidence args).
  destruct (py_eq (Args.confidence args) "nn");
    destruct (String.eqb (Args.dataset_type args) "classification");
    unfold bind at 1; cbn [print emit __init__ nn_Sigmoid new bind ret next_id trace];
    unfold bind at 1; cbn [create_encoder new_MPN emit new bind ret next_id trace];
    unfold bind at 1; rewrite create_ffn_run; cbn [next_id trace];
    cbn [bind initialize_weights emit ret next_id trace];
    unfold set_encoder, set_ffn; cbn;
    rewrite <- ?app_assoc; reflexivity.
Qed.

(** ** Reading the closed form *)

Section Triples.
Variables (a d : NNModule) (h : Z).
Hypothesis a_not_linear : is_linear a = false.
Hypothesis d_not_linear : is_linear d = false.

Lemma linear_shapes_app (s t : list NNModule) :
  linear_shapes (s ++ t) = linear_shapes s ++ linear_shapes t.
Proof.
  induction s as [|m s IH]; [reflexivity|].
  cbn. destruct (kind m); cbn; now rewrite IH.
Qed.

Lemma linear_shapes_triple (l : NNModule) (rest : list NNModule) :
  linear_shapes (a :: d :: l :: rest) = linear_shapes (l :: rest).
Proof.
  unfold is_linear in *. cbn.
  destruct (kind a); try discriminate; destruct (kind d); try discriminate;
    reflexivity.
Qed.

Lemma linear_shapes_interior (xs : list nat) :
  linear_shapes (flat_map (fun i => [a; d; linear_at i h h]) xs)
  = map (fun _ => (h, h)) xs.
Proof.
  induction xs as [|x xs IH]; [reflexivity|].
  cbn [flat_map app map]. rewrite linear_shapes_triple. cbn. now rewrite IH.
Qed.

Lemma stages_triple (l : NNModule) (rest : list NNModule) :
  is_linear l = true ->
  stages_from [] (a :: d :: l :: rest) = [a; d; l] :: stages_from [] rest.
Proof. intros Hl. cbn. now rewrite a_not_linear, d_not_linear, Hl. Qed.

Lemma stages_interior (xs : list nat) (rest : list NNModule) :
  stages_from [] (flat_map (fun i => [a; d; linear_at i h h]) xs ++ rest)
  = map (fun i => [a; d; linear_at i h h]) xs ++ stages_from [] rest.
Proof.
  induction xs as [|x xs IH]; [reflexivity|].
  cbn [flat_map map app]. rewrite stages_triple by reflexivity.
  now rewrite IH.
Qed.

End Triples.

Lemma removelast_snoc {A} (l : list A) (x : A) : removelast (l ++ [x]) = l.
Proof. rewrite removelast_app by discriminate. cbn. apply app_nil_r. Qed.

(** The linear transforms of a head with more than one layer requested (or
    fewer than one): the first, the interior ones, and the two that come
    whatever the count. *)
Lemma head_layout_linear_shapes (n : nat) (self : MoleculeModel) (args : Args.t) :
  Args.ffn_num_layers args <> 1 ->
  linear_shapes (head_layout n self args)
  = (first_linear_dim args, Args.ffn_hidden_size args)
    :: repeat (Args.ffn_hidden_size args, Args.ffn_hidden_size args)
              (Z.to_nat (Args.ffn_num_layers args - 3))
    ++ [(Args.ffn_hidden_size args, Args.last_hidden_size args);
        (Args.last_hidden_size args, head_output_size self args)].
Proof.
  intros HN. unfold head_layout.
  apply Z.eqb_neq in HN. rewrite HN.
  rewrite !linear_shapes_app, linear_shapes_interior by reflexivity.
  cbn. f_equal. f_equal.
  generalize (n + 3)%nat. generalize (Z.to_nat (Args.ffn_num_layers args - 3)).
  induction n0 as [|k IH]; intros s; cbn; [reflexivity|]. now rewrite IH.
Qed.

Lemma head_layout_stages (n : nat) (self : MoleculeModel) (args : Args.t) :
  Args.ffn_num_layers args <> 1 ->
  let d := {| oid := n; kind := Dropout (Args.dropout args) |} in
  let a := {| oid := S n; kind := Activation (Args.activation args) |} in
  let h := Args.ffn_hidden_size args in
  let k := Z.to_nat (Args.ffn_num_layers args - 3) in
  stages (head_layout n self args)
  = [d; linear_at (n + 2) (first_linear_dim args) h]
    :: map (fun i => [a; d; linear_at i h h]) (seq (n + 3) k)
    ++ [[a; d; linear_at (n + 3 + k) h (Args.last_hidden_size args)];
        [a; d; linear_at (n + 4 + k) (Args.last_hidden_size args)
                         (head_output_size self args)]].
Proof.
  intros HN d a h k. unfold head_layout, stages.
  apply Z.eqb_neq in HN. rewrite HN. fold d a h k.
  cbn [app stages_from is_linear kind d linear_at].
  f_equal. now rewrite stages_interior.
Qed.

Lemma create_ffn_head (self : MoleculeModel) (args : Args.t) (w : World) :
  ffn (fst (create_ffn self args w)) = Some (head_layout (next_id w) self args).
Proof. now rewrite create_ffn_run. Qed.

(** ** The head for one requested layer *)

(** C5. When the configuration asks for one feed-forward layer, the head is
    the dropout followed by a single linear transform; that transform reads
    the hidden size, plus the width of the external features when they are
    used, and writes the output size (twice that for a model with
    confidence output). *)
Theorem create_ffn_single_layer (self : MoleculeModel) (args : Args.t) (w : World) :
  Args.ffn_num_layers args = 1 ->
  exists s,
    ffn (fst (create_ffn self args w)) = Some s
    /\ map kind s
       = [Dropout (Args.dropout args);
          Linear (if Args.use_input_features args
                  then Args.hidden_size args + Args.features_dim args
                  else Args.hidden_size args)
                 (if confidence self
                  then Args.output_size args * 2
                  else Args.output_size args)]
    /\ List.length (linear_shapes s) = 1%nat.
Proof.
  intros HN. exists (head_layout (next_id w) self args).
  split; [apply create_ffn_head|].
  unfold head_layout. rewrite HN. cbn. auto.
Qed.

Lemma create_ffn_single_layer_witness :
  Args.ffn_num_layers one_layer_args = 1
  /\ exists s,
       ffn (fst (create_ffn (fst (__init__ true true empty_world))
                            one_layer_args empty_world)) = Some s
       /\ map kind s = [Dropout 0; Linear 7 6]
       /\ List.length (linear_shapes s) = 1%nat.
Proof.
  split; [reflexivity|].
  exact (create_ffn_single_layer (fst (__init__ true true empty_world))
           one_layer_args empty_world eq_refl).
Defined.

(** ** Interior stages *)

(** C6. For more than one requested layer, the head has [N - 3] interior
    stages when that number is positive and none otherwise; each of them is
    activation, dropout and a linear transform that keeps the feed-forward
    hidden width. *)
Theorem create_ffn_interior_stages (self : MoleculeModel) (args : Args.t) (w : World) :
  1 < Args.ffn_num_layers args ->
  exists s,
    ffn (fst (create_ffn self args w)) = Some s
    /\ Forall (fun st => map kind st
                         = [Activation (Args.activation args);
                            Dropout (Args.dropout args);
                            Linear (Args.ffn_hidden_size args)
                                   (Args.ffn_hidden_size args)])
              (interior_stages s)
    /\ (0 < Args.ffn_num_layers args - 3 ->
        Z.of_nat (List.length (interior_stages s)) = Args.ffn_num_layers args - 3)
    /\ (Args.ffn_num_layers args - 3 <= 0 ->
        List.length (interior_stages s) = 0%nat).
Proof.
  intros HN. exists (head_layout (next_id w) self args).
  split; [apply create_ffn_head|].
  assert (Hst : interior_stages (head_layout (next_id w) self args)
                = map (fun i =>
                         [{| oid := S (next_id w);
                             kind := Activation (Args.activation args) |};
                          {| oid := next_id w;
                             kind := Dropout (Args.dropout args) |};
                          linear_at i (Args.ffn_hidden_size args)
                                      (Args.ffn_hidden_size args)])
                      (seq (next_id w + 3)
                           (Z.to_nat (Args.ffn_num_layers args - 3)))).
  { unfold interior_stages. rewrite head_layout_stages by lia.
    cbn [tl].
    match goal with
    | |- removelast (removelast (?l ++ [?x; ?y])) = _ =>
        change (l ++ [x; y]) with (l ++ [x] ++ [y]);
        rewrite app_assoc, !removelast_snoc
    end.
    reflexivity. }
  rewrite Hst. split; [|split].
  - apply Forall_forall. intros st Hin.
    apply in_map_iff in Hin. destruct Hin as [i [<- _]]. reflexivity.
  - intros Hpos. rewrite length_map, length_seq. lia.
  - intros Hneg. rewrite length_map, length_seq. lia.
Qed.

Lemma create_ffn_interior_stages_witness :
  1 < Args.ffn_num_layers small_args
  /\ exists s,
       ffn (fst (create_ffn (fst (__init__ true false empty_world))
                            small_args empty_world)) = Some s
       /\ Forall (fun st => map kind st
                            = [Activation "ReLU"; Dropout 0; Linear 1 1])
                 (interior_stages s)
       /\ (0 < 4 - 3 -> Z.of_nat (List.length (interior_stages s)) = 4 - 3)
       /\ (4 - 3 <= 0 -> List.length (interior_stages s) = 0%nat).
Proof.
  split; [reflexivity|].
  exact (create_ffn_interior_stages (fst (__init__ true false empty_world))
           small_args empty_world eq_refl).
Defined.

(** ** Two requested layers *)

(** C1. On the documented example (two feed-forward layers, every width 300,
    one output, a regression model) [create_ffn] builds THREE linear
    transforms, 300 to 300, 300 to 300 and 300 to 1, and not the
    five-module head with two linear transforms. *)
Theorem create_ffn_example_has_three_linears :
  let built := ffn (fst (create_ffn (fst (__init__ false false empty_world))
                                    example_args empty_world)) in
  option_map (map kind) built
  = Some [Dropout 0; Linear 300 300;
          Activation "ReLU"; Dropout 0; Linear 300 300;
          Activation "ReLU"; Dropout 0; Linear 300 1]
  /\ option_map linear_shapes built = Some [(300, 300); (300, 300); (300, 1)]
  /\ option_map (map kind) built
     <> Some [Dropout 0; Linear 300 300;
              Activation "ReLU"; Dropout 0; Linear 300 1]
  /\ option_map (fun s => Z.of_nat (List.length (linear_shapes s))) built
     <> Some (Args.ffn_num_layers example_args).
Proof.
  cbv zeta. rewrite create_ffn_head.
  repeat split; try reflexivity; cbn; discriminate.
Qed.

(** X1. From three requested layers on the count is met: the head has exactly
    [N] linear transforms, all between feed-forward hidden widths except the
    first, which reads the input width, and the last two, which write the
    last hidden width and the output width. *)
Theorem create_ffn_linear_count (self : MoleculeModel) (args : Args.t) (w : World) :
  3 <= Args.ffn_num_layers args ->
  exists s,
    ffn (fst (create_ffn self args w)) = Some s
    /\ Z.of_nat (List.length (linear_shapes s)) = Args.ffn_num_layers args
    /\ linear_shapes s
       = (first_linear_dim args, Args.ffn_hidden_size args)
         :: repeat (Args.ffn_hidden_size args, Args.ffn_hidden_size args)
                   (Z.to_nat (Args.ffn_num_layers args - 3))
         ++ [(Args.ffn_hidden_size args, Args.last_hidden_size args);
             (Args.last_hidden_size args, head_output_size self args)].
Proof.
  intros HN. exists (head_layout (next_id w) self args).
  split; [apply create_ffn_head|].
  rewrite head_layout_linear_shapes by lia.
  split; [|reflexivity].
  cbn [List.length]. rewrite length_app, repeat_length. cbn [List.length]. lia.
Qed.

Lemma create_ffn_linear_count_witness :
  3 <= Args.ffn_num_layers small_args
  /\ exists s,
       ffn (fst (create_ffn (fst (__init__ true false empty_world))
                            small_args empty_world)) = Some s
       /\ Z.of_nat (List.length (linear_shapes s)) = 4
       /\ linear_shapes s = [(1, 1); (1, 1); (1, 1); (1, 1)].
Proof.
  split; [discriminate|].
  exact (create_ffn_linear_count (fst (__init__ true false empty_world))
           small_args empty_world (fun H => match H with eq_refl => I end)).
Defined.

(** ** What [build_model] decides and writes *)

Lemma py_eq_true (x : option string) (lit : string) :
  py_eq x lit = true <-> x = Some lit.
Proof.
  destruct x as [s|]; cbn.
  - rewrite String.eqb_eq. split; [now intros ->|now intros [= ->]].
  - split; discriminate.
Qed.

Lemma built_model_confidence (n : nat) (args : Args.t) :
  confidence (built_model n args) = py_eq (Args.confidence args) "nn".
Proof. reflexivity. Qed.

Lemma built_model_classification (n : nat) (args : Args.t) :
  classification (built_model n args)
  = String.eqb (Args.dataset_type args) "classification".
Proof. reflexivity. Qed.

Lemma head_layout_last (n : nat) (self : MoleculeModel) (args : Args.t) :
  exists front id i,
    head_layout n self args
    = front ++ [linear_at id i (head_output_size self args)].
Proof.
  unfold head_layout.
  destruct (Args.ffn_num_layers args =? 1).
  - eexists [_], _, _. reflexivity.
  - match goal with
    | |- exists front id i, ?A ++ ?B ++ ?C ++ [?a; ?d; linear_at ?n ?x _] = _ =>
        exists (A ++ B ++ C ++ [a; d]), n, x
    end.
    now rewrite <- !app_assoc.
Qed.

(** C3. The last module of the head is a linear transform whose output
    width is the configured output size, doubled for a model with
    confidence output; [build_model] sets that output size to the number of
    tasks before the head is made, so the head it returns ends in the
    number of tasks, doubled exactly when confidence estimation is ["nn"],
    whatever output size the configuration held before. *)
Theorem final_linear_output_width :
  (forall (self : MoleculeModel) (args : Args.t) (w : World),
      exists front l i,
        ffn (fst (create_ffn self args w)) = Some (front ++ [l])
        /\ kind l = Linear i (if confidence self
                              then Args.output_size args * 2
                              else Args.output_size args))
  /\ (forall (args : Args.t) (w : World),
         let '(m, args', _) := build_model args w in
         Args.output_size args' = Args.num_tasks args
         /\ (confidence m = true <-> Args.confidence args = Some "nn"%string)
         /\ exists front l i,
              ffn m = Some (front ++ [l])
              /\ kind l = Linear i (if confidence m
                                    then Args.num_tasks args * 2
                                    else Args.num_tasks args)).
Proof.
  split.
  - intros self args w. rewrite create_ffn_head.
    destruct (head_layout_last (next_id w) self args) as (front & id & i & E).
    exists front, (linear_at id i (head_output_size self args)), i.
    now rewrite E.
  - intros args w. rewrite build_model_run.
    split; [reflexivity|]. split; [apply py_eq_true|].
    unfold built_model. cbn [ffn set_ffn confidence].
    match goal with
    | |- context [head_layout ?n ?m0 ?a] =>
        destruct (head_layout_last n m0 a) as (front & id & i & E)
    end.
    eexists front, _, i. rewrite E. split; reflexivity.
Qed.

(** C7. [build_model] changes the configuration it is given in one field
    only: the output size becomes the number of tasks.  The write comes
    first, so the encoder is already made from the changed configuration. *)
Theorem build_model_writes_output_size (args : Args.t) (w : World) :
  let '(m, args', w') := build_model args w in
  Args.output_size args' = Args.num_tasks args
  /\ (Args.hidden_size args' = Args.hidden_size args
      /\ Args.use_input_features args' = Args.use_input_features args
      /\ Args.features_dim args' = Args.features_dim args
      /\ Args.dropout args' = Args.dropout args
      /\ Args.activation args' = Args.activation args
      /\ Args.num_tasks args' = Args.num_tasks args
      /\ Args.ffn_num_layers args' = Args.ffn_num_layers args
      /\ Args.ffn_hidden_size args' = Args.ffn_hidden_size args
      /\ Args.last_hidden_size args' = Args.last_hidden_size args
      /\ Args.dataset_type args' = Args.dataset_type args
      /\ Args.confidence args' = Args.confidence args)
  /\ (exists id, encoder m = Some {| oid := id; kind := MPN args' |})
  /\ (exists before after,
         trace w' = trace w ++ before ++ Call_MPN args' :: after).
Proof.
  rewrite build_model_run. split; [reflexivity|].
  split; [repeat split|]. split.
  - unfold built_model. cbn [encoder set_ffn]. eexists. reflexivity.
  - cbn [trace]. eexists _, _. reflexivity.
Qed.

(** C8. [build_model] makes a classifier exactly when the dataset type is
    ["classification"] and a model with confidence output exactly when the
    confidence setting is ["nn"].  It makes the encoder, then the head
    (every object of the head is younger than the encoder), then hands the
    model, encoder and head in place, to [initialize_weights], and returns
    that model. *)
Theorem build_model_assembly (args : Args.t) (w : World) :
  let '(m, args', w') := build_model args w in
  (classification m = true <-> Args.dataset_type args = "classification"%string)
  /\ (confidence m = true <-> Args.confidence args = Some "nn"%string)
  /\ (exists e s,
         encoder m = Some e /\ kind e = MPN args'
         /\ ffn m = Some s
         /\ s = head_layout (S (oid e)) m args'
         /\ Forall (fun l => (oid e < oid l)%nat) s)
  /\ trace w'
     = trace w
       ++ (if confidence m then [Call_print "nn"] else [])
       ++ [Call_MPN args';
           Call_get_activation_function (Args.activation args);
           Call_initialize_weights m].
Proof.
  rewrite build_model_run.
  split; [apply String.eqb_eq|]. split; [apply py_eq_true|]. split.
  - unfold built_model. cbn [encoder ffn set_ffn].
    eexists _, _. split; [reflexivity|]. split; [reflexivity|].
    split; [reflexivity|]. cbn [oid]. split; [reflexivity|].
    unfold head_layout.
    destruct (Args.ffn_num_layers _ =? 1).
    + forall_cons.
    + repeat (apply Forall_app; split); try forall_cons.
      apply Forall_flat_map, Forall_forall. intros i Hi.
      apply in_seq in Hi. forall_cons.
  - cbn [trace]. rewrite built_model_confidence.
    destruct (py_eq (Args.confidence args) "nn") eqn:E; [|reflexivity].
    apply py_eq_true in E. now rewrite E.
Qed.

(** ** The forward pass *)

Section ForwardFacts.
Context {Input Tensor : Type} {T : Torch Input Tensor}.

(** [forward] is the output of the chosen network, followed by the sigmoid
    under the three-fold test and by nothing otherwise. *)
Lemma forward_unfold (self : MoleculeModel) (input : Input) :
  forward self input
  = (output <~ head_output self input ;;
     if classification self && negb (training self) && use_last_hidden self
     then sg <~ getattr "sigmoid" (sigmoid self) ;;
          module_call (training self) sg output
     else Ok output).
Proof.
  unfold forward, head_output.
  destruct (forward_ffn self) as [s| |]; cbn [rbind]; try reflexivity.
  destruct (getattr "encoder" (encoder self)) as [e| |]; cbn [rbind];
    try reflexivity.
  destruct (encoder_call (training self) e input) as [h| |]; cbn [rbind];
    reflexivity.
Qed.

Lemma forward_training (self : MoleculeModel) (input : Input) :
  training self = true -> forward self input = head_output self input.
Proof.
  intros Ht. rewrite forward_unfold, Ht, andb_false_r. cbn.
  now destruct (head_output self input).
Qed.

Lemma forward_truncated (self : MoleculeModel) (input : Input) :
  use_last_hidden self = false -> forward self input = head_output self input.
Proof.
  intros Hu. rewrite forward_unfold, Hu, andb_false_r.
  now destruct (head_output self input).
Qed.

End ForwardFacts.

Lemma Sequential_call_log (mode : bool) (s : Sequential) (t : list NNModule) :
  Sequential_call (T := CallLog) mode s t = Ok (t ++ s).
Proof.
  revert t. induction s as [|m s IH]; intros t; cbn.
  - now rewrite app_nil_r.
  - rewrite IH. now rewrite <- app_assoc.
Qed.

(** The sigmoid stays between 0 and 1. *)
Lemma sigmoid_fn_bounds (x : R) : (0 <= sigmoid_fn x <= 1)%R.
Proof.
  unfold sigmoid_fn.
  assert (He : (0 < exp (- x))%R) by apply exp_pos.
  assert (Hd : (0 < 1 + exp (- x))%R) by lra.
  split.
  - apply Rlt_le, Rdiv_lt_0_compat; lra.
  - apply Rmult_le_reg_r with (r := (1 + exp (- x))%R); [exact Hd|].
    unfold Rdiv. rewrite Rmult_assoc, Rinv_l by lra. lra.
Qed.

(** ** No sigmoid object sits in a head *)

Lemma children_from_Forall (P : NNModule -> Prop) (l : list NNModule) :
  forall memo, Forall P l -> Forall P (children_from memo l).
Proof.
  induction l as [|m l IH]; intros memo H; cbn; [constructor|].
  inversion H; subst.
  destruct (existsb (Nat.eqb (oid m)) memo); auto.
Qed.

Lemma removelast_Forall {A} (P : A -> Prop) (l : list A) :
  Forall P l -> Forall P (removelast l).
Proof.
  induction l as [|x l IH]; intros H; cbn; [constructor|].
  inversion H; subst. destruct l; [constructor|]. constructor; auto.
Qed.

Lemma head_layout_no_sigmoid (n : nat) (self : MoleculeModel) (args : Args.t) :
  Forall (fun m => is_sigmoid m = false) (head_layout n self args).
Proof.
  unfold head_layout. destruct (Args.ffn_num_layers args =? 1).
  - forall_cons.
  - repeat (apply Forall_app; split); try forall_cons.
    apply Forall_flat_map, Forall_forall. intros i _. forall_cons.
Qed.

Lemma existsb_none {A} (f : A -> bool) (l : list A) :
  Forall (fun x => f x = false) l -> existsb f l = false.
Proof.
  induction 1 as [|x l Hx _ IH]; cbn; [reflexivity|]. now rewrite Hx, IH.
Qed.

(** ** A freshly built model *)

(** C9. A model leaves its constructor, and so [build_model], with the
    full-output flag set: its forward pass runs the complete head, in either
    mode, and once the model is out of training mode a classifier's output
    goes through the sigmoid object while a regressor's is returned as the
    head gave it. *)
Theorem fresh_model_runs_full_head :
  (forall (c conf : bool) (w : World),
      use_last_hidden (fst (__init__ c conf w)) = true)
  /\ (forall (args : Args.t) (w : World),
         let m := fst (fst (build_model args w)) in
         use_last_hidden m = true
         /\ exists e s sg,
              encoder m = Some e /\ ffn m = Some s /\ kind sg = Sigmoid
              /\ sigmoid m = (if classification m then Some sg else None)
              /\ (forall mode, forward_ffn (train mode m) = Ok s)
              /\ forall (Input Tensor : Type) (T : Torch Input Tensor)
                        (x : Input),
                   forward (train false m) x
                   = (hidden <~ encoder_call false e x ;;
                      output <~ Sequential_call false s hidden ;;
                      if classification m
                      then module_call false sg output
                      else Ok output)).
Proof.
  split.
  - intros c conf w. now destruct c.
  - intros args w. rewrite build_model_run. cbn [fst].
    split; [reflexivity|].
    eexists _, _, {| oid := next_id w; kind := Sigmoid |}.
    split; [reflexivity|]. split; [reflexivity|]. split; [reflexivity|].
    split; [|split].
    + rewrite built_model_classification. unfold built_model. cbn.
      reflexivity.
    + intros mode. reflexivity.
    + intros Input Tensor T x.
      unfold forward, forward_ffn. cbn.
      destruct (encoder_call false _ x) as [h| |]; cbn; try reflexivity.
      destruct (Sequential_call false _ h) as [o| |]; cbn; try reflexivity.
      now destruct (String.eqb (Args.dataset_type args) "classification").
Qed.

(** ** When the sigmoid is applied *)

(** C2. For a model made by [build_model], in either mode and with either
    setting of the full-output flag: [forward] is the head output followed
    by the sigmoid exactly under the test "classifier, not training, full
    output"; read as a log of calls, the sigmoid object is called if and
    only if the three hold; read on real numbers, the output under the test
    is the sigmoid of the head output and every element lies between 0 and
    1; in training mode the output is the head output itself. *)
Theorem forward_sigmoid_iff (args : Args.t) (w : World) (mode full : bool) :
  let m := train mode (set_use_last_hidden full (fst (fst (build_model args w)))) in
  let test := classification m && negb (training m) && use_last_hidden m in
  (forall (Input Tensor : Type) (T : Torch Input Tensor) (x : Input),
      forward m x
      = (output <~ head_output m x ;;
         if test
         then module_call (training m) {| oid := next_id w; kind := Sigmoid |}
                          output
         else Ok output))
  /\ (exists log,
         forward (T := CallLog) m tt = Ok log
         /\ (existsb is_sigmoid log = true
             <-> classification m = true /\ training m = false
                 /\ use_last_hidden m = true))
  /\ (forall (Input : Type) enc call (x : Input),
         test = true ->
         forall out, forward (T := Values Input enc call) m x = Ok out ->
         exists raw,
           head_output (T := Values Input enc call) m x = Ok raw
           /\ out = map sigmoid_fn raw
           /\ Forall (fun v => (0 <= v <= 1)%R) out)
  /\ (forall (Input Tensor : Type) (T : Torch Input Tensor) (x : Input),
         training m = true -> forward m x = head_output m x).
Proof.
  cbv zeta. rewrite build_model_run. cbn [fst].
  set (m := train mode (set_use_last_hidden full (built_model (next_id w) args))).
  assert (Hsg : classification m = true ->
                sigmoid m = Some {| oid := next_id w; kind := Sigmoid |}).
  { unfold m, built_model. cbn. now intros ->. }
  assert (Hgen : forall (Input Tensor : Type) (T : Torch Input Tensor) (x : Input),
             forward m x
             = (output <~ head_output m x ;;
                if classification m && negb (training m) && use_last_hidden m
                then module_call (training m)
                       {| oid := next_id w; kind := Sigmoid |} output
                else Ok output)).
  { intros Input Tensor T x. rewrite forward_unfold.
    destruct (head_output m x) as [o| |]; cbn [rbind]; try reflexivity.
    destruct (classification m) eqn:Ec; [|reflexivity].
    now rewrite (Hsg eq_refl). }
  split; [exact Hgen|]. split; [|split].
  - rewrite Hgen.
    assert (Hhead : exists s,
               head_output (T := CallLog) m tt = Ok s
               /\ Forall (fun l => is_sigmoid l = false) s).
    { unfold head_output, forward_ffn, m, built_model. cbn.
      destruct full; cbn; rewrite Sequential_call_log;
        (eexists; split; [reflexivity|]);
        (apply Forall_cons; [reflexivity|]).
      - apply head_layout_no_sigmoid.
      - apply removelast_Forall, children_from_Forall, head_layout_no_sigmoid. }
    destruct Hhead as (s & -> & Hs). cbn [rbind].
    destruct (classification m && negb (training m) && use_last_hidden m) eqn:Et.
    + eexists. split; [reflexivity|].
      rewrite existsb_app. cbn [existsb is_sigmoid kind]. rewrite orb_true_r.
      split; [intros _|reflexivity].
      apply andb_prop in Et. destruct Et as [Et ->].
      apply andb_prop in Et. destruct Et as [-> Et].
      apply negb_true_iff in Et. auto.
    + eexists. split; [reflexivity|].
      rewrite existsb_none by exact Hs.
      split; [discriminate|]. intros (Hc & Ht & Hu).
      rewrite Hc, Ht, Hu in Et. discriminate.
  - intros Input enc call x Ht out Hout.
    rewrite Hgen, Ht in Hout.
    destruct (head_output m x) as [raw| |]; cbn in Hout; try discriminate.
    injection Hout as <-. exists raw. split; [reflexivity|].
    split; [reflexivity|].
    apply Forall_forall. intros v Hv. apply in_map_iff in Hv.
    destruct Hv as (r & <- & _). apply sigmoid_fn_bounds.
  - intros Input Tensor T x. apply forward_training.
Qed.

(** ** The truncated head *)

Lemma children_pair (d l : NNModule) :
  oid l <> oid d -> children [d; l] = [d; l].
Proof.
  intros Hne. unfold children. cbn.
  apply Nat.eqb_neq in Hne. now rewrite Hne.
Qed.

(** C10. With one requested layer and the full-output flag cleared, the
    network [forward] runs is the dropout object alone: the encoder's output
    goes through the dropout and is returned, so its width is the width the
    encoder produced (the input width of the dropped linear transform: the
    hidden size, plus the feature width when features are used); no linear
    transform and no sigmoid is called, in either mode, classifier or not. *)
Theorem truncated_single_layer (args : Args.t) (w : World) (mode : bool) :
  Args.ffn_num_layers args = 1 ->
  let m := train mode
             (set_use_last_hidden false (fst (fst (build_model args w)))) in
  exists e d l,
    encoder m = Some e
    /\ ffn m = Some [d; l]
    /\ kind d = Dropout (Args.dropout args)
    /\ kind l = Linear (if Args.use_input_features args
                        then Args.hidden_size args + Args.features_dim args
                        else Args.hidden_size args)
                       (head_output_size m (Args.set_output_size
                                              (Args.num_tasks args) args))
    /\ forward_ffn m = Ok [d]
    /\ (forall (Input Tensor : Type) (T : Torch Input Tensor) (x : Input),
           forward m x
           = (hidden <~ encoder_call mode e x ;; module_call mode d hidden))
    /\ forward (T := CallLog) m tt = Ok [e; d]
    /\ (forall (Input : Type) enc_width (x : Input) (wd : Z),
           enc_width e x = Ok wd ->
           forward (T := Widths Input enc_width) m x = Ok wd).
Proof.
  intros HN. cbv zeta. rewrite build_model_run. cbn [fst].
  assert (Hffn : ffn (built_model (next_id w) args)
                 = Some (head_layout
                           (S (if String.eqb (Args.dataset_type args)
                                             "classification"
                               then S (next_id w) else next_id w))
                           (built_model (next_id w) args)
                           (Args.set_output_size (Args.num_tasks args) args)))
    by reflexivity.
  unfold head_layout in Hffn.
  change (Args.ffn_num_layers (Args.set_output_size (Args.num_tasks args) args))
    with (Args.ffn_num_layers args) in Hffn.
  rewrite HN in Hffn. cbn [Z.eqb Pos.eqb] in Hffn.
  match type of Hffn with
  | _ = Some [?d; ?l] =>
      set (d0 := d) in *; set (l0 := l) in *;
      assert (Hch : children [d0; l0] = [d0; l0])
        by (apply children_pair; cbn; lia)
  end.
  set (b := built_model (next_id w) args) in *.
  assert (Hfwd : forward_ffn (train mode (set_use_last_hidden false b))
                 = Ok [d0]).
  { unfold forward_ffn. cbn [ffn train set_use_last_hidden use_last_hidden].
    rewrite Hffn. cbn [getattr rbind]. unfold nn_Sequential.
    now rewrite Hch. }
  assert (Henc : exists e, encoder b = Some e) by (eexists; reflexivity).
  destruct Henc as [e He].
  assert (Hall : forall (Input Tensor : Type) (T : Torch Input Tensor)
                        (x : Input),
             forward (train mode (set_use_last_hidden false b)) x
             = (hidden <~ encoder_call mode e x ;; module_call mode d0 hidden)).
  { intros Input Tensor T x.
    rewrite forward_truncated by reflexivity.
    unfold head_output. rewrite Hfwd.
    cbn [rbind encoder train set_use_last_hidden training]. rewrite He.
    cbn [getattr rbind].
    destruct (encoder_call mode e x) as [h| |]; cbn [rbind]; try reflexivity.
    cbn [Sequential_call]. now destruct (module_call mode d0 h). }
  exists e, d0, l0.
  split; [exact He|]. split; [exact Hffn|]. split; [reflexivity|].
  split; [reflexivity|]. split; [exact Hfwd|]. split; [exact Hall|]. split.
  - rewrite Hall. reflexivity.
  - intros Input enc_width x wd Hwd. rewrite Hall.
    cbn [encoder_call Widths]. rewrite Hwd. reflexivity.
Qed.

Lemma truncated_single_layer_witness :
  Args.ffn_num_layers one_layer_args = 1
  /\ exists e d l,
       encoder (train false (set_use_last_hidden false
                  (fst (fst (build_model one_layer_args empty_world)))))
       = Some e
       /\ ffn (train false (set_use_last_hidden false
                  (fst (fst (build_model one_layer_args empty_world)))))
          = Some [d; l]
       /\ kind d = Dropout 0
       /\ kind l = Linear 7 6.
Proof.
  split; [reflexivity|].
  destruct (truncated_single_layer one_layer_args empty_world false eq_refl)
    as (e & d & l & He & Hf & Hd & Hl & _).
  exists e, d, l. auto.
Defined.

(** C4. On a four-layer model with the full-output flag cleared, [forward]
    does not run the head without its last module: the dropout and the
    activation are one object each, so the enumeration of children keeps
    their first position only, and the network that runs is dropout,
    linear, activation, linear, linear.  With every linear transform
    [x |-> - x - 1], a rectifier and the encoder output [-3] it returns [2],
    where the head without its last module gives [0] and the head up to its
    second-to-last linear transform gives [-1]. *)
Theorem truncated_forward_drops_repeated_modules :
  let m := train false
             (set_use_last_hidden false
                (fst (fst (build_model small_args empty_world)))) in
  exists head,
    ffn m = Some head
    /\ map oid head = [2; 4; 3; 2; 5; 3; 2; 6; 3; 2; 7]%nat
    /\ map kind head
       = [Dropout 0; Linear 1 1;
          Activation "ReLU"; Dropout 0; Linear 1 1;
          Activation "ReLU"; Dropout 0; Linear 1 1;
          Activation "ReLU"; Dropout 0; Linear 1 1]
    /\ (exists ran,
           forward_ffn m = Ok ran
           /\ map oid ran = [2; 4; 3; 5; 6]%nat
           /\ ran <> removelast head)
    /\ forward (T := Scalars) m (-3) = Ok 2
    /\ Sequential_call (T := Scalars) false (removelast head) (-3) = Ok 0
    /\ Sequential_call (T := Scalars) false (firstn 8 head) (-3) = Ok (-1).
Proof.
  cbv zeta. rewrite build_model_run. cbn [fst].
  eexists. split; [reflexivity|].
  split; [reflexivity|]. split; [reflexivity|]. split.
  - eexists. split; [reflexivity|]. split; [reflexivity|].
    intros H. apply (f_equal (@List.length NNModule)) in H.
    vm_compute in H. discriminate.
  - repeat split; reflexivity.
Qed.

(** ** The children of a head, in general *)

Lemma existsb_eqb_In (x : nat) (memo : list nat) :
  existsb (Nat.eqb x) memo = true <-> In x memo.
Proof.
  rewrite existsb_exists. split.
  - intros (y & Hy & E). apply Nat.eqb_eq in E. now subst.
  - intros H. exists x. split; [exact H|apply Nat.eqb_refl].
Qed.

Lemma existsb_eqb_not_In (x : nat) (memo : list nat) :
  ~ In x memo -> existsb (Nat.eqb x) memo = false.
Proof.
  intros H. destruct (existsb (Nat.eqb x) memo) eqn:E; [|reflexivity].
  apply existsb_eqb_In in E. contradiction.
Qed.

Section SharedObjects.
Variables a d : NNModule.

(** Once the shared activation and dropout have been met, a run of
    activation, dropout, linear triples yields its linear transforms only. *)
Lemma children_from_seen (ls : list NNModule) :
  forall (memo : list nat) (rest : list NNModule),
    In (oid a) memo -> In (oid d) memo ->
    NoDup (map oid ls) ->
    (forall l, In l ls -> ~ In (oid l) memo) ->
    children_from memo (flat_map (fun l => [a; d; l]) ls ++ rest)
    = ls ++ children_from (rev (map oid ls) ++ memo) rest.
Proof.
  induction ls as [|l ls IH]; intros memo rest Ha Hd Hnd Hfresh;
    [reflexivity|].
  cbn [flat_map app children_from map rev].
  apply existsb_eqb_In in Ha as Ea. apply existsb_eqb_In in Hd as Ed.
  rewrite Ea, Ed.
  rewrite existsb_eqb_not_In by (apply Hfresh; now left).
  inversion Hnd as [|? ? Hl Hnd']; subst.
  rewrite IH; auto.
  - now rewrite <- app_assoc.
  - now right.
  - now right.
  - intros l' Hin [E|Hm].
    + apply Hl. rewrite E. now apply in_map.
    + apply (Hfresh l'); [now right|exact Hm].
Qed.

(** The first triple still yields the activation. *)
Lemma children_from_triples (ls : list NNModule) (memo : list nat) :
  ls <> [] ->
  ~ In (oid a) memo -> In (oid d) memo ->
  NoDup (map oid ls) ->
  (forall l, In l ls -> ~ In (oid l) memo /\ oid l <> oid a) ->
  children_from memo (flat_map (fun l => [a; d; l]) ls) = a :: ls.
Proof.
  intros Hne Ha Hd Hnd Hfresh. destruct ls as [|l ls]; [congruence|].
  cbn [flat_map app children_from].
  rewrite (existsb_eqb_not_In _ _ Ha).
  assert (Ed : existsb (Nat.eqb (oid d)) (oid a :: memo) = true)
    by (apply existsb_eqb_In; now right).
  rewrite Ed.
  destruct (Hfresh l (or_introl eq_refl)) as [Hl1 Hl2].
  rewrite existsb_eqb_not_In by (intros [E|Hm]; [now apply Hl2|now apply Hl1]).
  f_equal. f_equal.
  inversion Hnd as [|? ? Hl Hnd']; subst.
  rewrite <- (app_nil_r (flat_map _ ls)).
  rewrite children_from_seen; [now rewrite app_nil_r| | | |].
  - right. now left.
  - right. right. exact Hd.
  - exact Hnd'.
  - intros l' Hin [E|[E|Hm]].
    + apply Hl. rewrite E. now apply in_map.
    + destruct (Hfresh l' (or_intror Hin)) as [_ H2]. now apply H2.
    + destruct (Hfresh l' (or_intror Hin)) as [H1 _]. now apply H1.
Qed.

End SharedObjects.

Lemma flat_map_through_map {A B C} (f : B -> list C) (g : A -> B) (xs : list A) :
  flat_map (fun x => f (g x)) xs = flat_map f (map g xs).
Proof. induction xs as [|x xs IH]; cbn; [reflexivity|]. now rewrite IH. Qed.

Lemma later_linears_oids (n : nat) (self : MoleculeModel) (args : Args.t) :
  map oid (later_linears n self args)
  = seq (n + 3) (Z.to_nat (Args.ffn_num_layers args - 3) + 2).
Proof.
  unfold later_linears. rewrite map_app, map_map. cbn [map oid linear_at].
  rewrite map_id, seq_app. cbn [seq]. repeat f_equal; lia.
Qed.

Lemma head_layout_triples (n : nat) (self : MoleculeModel) (args : Args.t) :
  Args.ffn_num_layers args <> 1 ->
  head_layout n self args
  = {| oid := n; kind := Dropout (Args.dropout args) |}
    :: linear_at (n + 2) (first_linear_dim args) (Args.ffn_hidden_size args)
    :: flat_map (fun l => [{| oid := S n;
                              kind := Activation (Args.activation args) |};
                           {| oid := n; kind := Dropout (Args.dropout args) |};
                           l])
                (later_linears n self args).
Proof.
  intros HN. unfold head_layout, later_linears.
  apply Z.eqb_neq in HN. rewrite HN.
  rewrite flat_map_app, <- flat_map_through_map. reflexivity.
Qed.

(** The children of a head with more than one linear transform: dropout,
    first linear transform, activation, then the remaining linear
    transforms; every later dropout and activation is the same object
    again and is left out. *)
Lemma head_layout_children (n : nat) (self : MoleculeModel) (args : Args.t) :
  Args.ffn_num_layers args <> 1 ->
  children (head_layout n self args)
  = [{| oid := n; kind := Dropout (Args.dropout args) |};
     linear_at (n + 2) (first_linear_dim args) (Args.ffn_hidden_size args);
     {| oid := S n; kind := Activation (Args.activation args) |}]
    ++ later_linears n self args.
Proof.
  intros HN. rewrite head_layout_triples by exact HN.
  unfold children. cbn [children_from existsb oid linear_at].
  replace (Nat.eqb (n + 2) n) with false by (symmetry; apply Nat.eqb_neq; lia).
  cbn [orb app]. f_equal. f_equal.
  assert (Hin : forall l, In l (later_linears n self args) ->
                          (n + 3 <= oid l)%nat).
  { intros l Hl. apply (in_map oid) in Hl.
    rewrite later_linears_oids in Hl. apply in_seq in Hl. lia. }
  apply children_from_triples.
  - unfold later_linears. intros E. apply (f_equal (@List.length _)) in E.
    rewrite length_app in E. cbn in E. lia.
  - cbn. lia.
  - cbn. lia.
  - rewrite later_linears_oids. apply seq_NoDup.
  - intros l Hl. apply Hin in Hl. cbn. lia.
Qed.

(** ** Widths through a head *)

Section WidthFacts.
Context {Input : Type} (enc_width : NNModule -> Input -> result Z).

(** For widths only the linear transforms of a network count. *)
Lemma widths_linear_only (mode : bool) (s : list NNModule) :
  Forall (fun m => elementwise m = true \/ is_linear m = true) s ->
  forall wd,
    Sequential_call (T := Widths Input enc_width) mode s wd
    = Sequential_call (T := Widths Input enc_width) mode (filter is_linear s) wd.
Proof.
  induction 1 as [|m s Hm _ IH]; intros wd; [reflexivity|].
  cbn [filter]. destruct (is_linear m) eqn:El.
  - cbn [Sequential_call]. destruct (module_call mode m wd); cbn [rbind]; auto.
  - destruct Hm as [Hm|Hm]; [|congruence].
    cbn [Sequential_call module_call Widths]. unfold width_call.
    unfold elementwise in Hm. destruct (kind m); try discriminate;
      cbn [rbind]; apply IH.
Qed.

Lemma widths_run_linears (mode : bool) (h : Z) (xs : list nat) :
  Sequential_call (T := Widths Input enc_width) mode
    (map (fun i => linear_at i h h) xs) h = Ok h.
Proof.
  induction xs as [|x xs IH]; [reflexivity|].
  cbn [map Sequential_call module_call Widths]. unfold width_call.
  cbn [kind linear_at]. rewrite Z.eqb_refl. cbn [rbind]. exact IH.
Qed.

End WidthFacts.

Lemma Sequential_call_app {Input Tensor} {T : Torch Input Tensor}
    (mode : bool) (s t : list NNModule) (x : Tensor) :
  Sequential_call mode (s ++ t) x
  = (y <~ Sequential_call mode s x ;; Sequential_call mode t y).
Proof.
  revert x. induction s as [|m s IH]; intros x; [reflexivity|].
  cbn [app Sequential_call].
  destruct (module_call mode m x); cbn [rbind]; auto.
Qed.

Section TripleFilters.
Variables a d : NNModule.
Hypothesis a_elementwise : elementwise a = true.
Hypothesis d_elementwise : elementwise d = true.

Lemma elementwise_not_linear (m : NNModule) :
  elementwise m = true -> is_linear m = false.
Proof. unfold elementwise, is_linear. now destruct (kind m). Qed.

Lemma filter_triples (ls : list NNModule) :
  Forall (fun l => is_linear l = true) ls ->
  filter is_linear (flat_map (fun l => [a; d; l]) ls) = ls.
Proof.
  induction 1 as [|l ls Hl _ IH]; [reflexivity|].
  cbn [flat_map app filter].
  rewrite (elementwise_not_linear a), (elementwise_not_linear d), Hl, IH; auto.
Qed.

Lemma triples_shape_ok (ls : list NNModule) :
  Forall (fun l => is_linear l = true) ls ->
  Forall (fun m => elementwise m = true \/ is_linear m = true)
         (flat_map (fun l => [a; d; l]) ls).
Proof.
  induction 1 as [|l ls Hl _ IH]; [constructor|].
  cbn [flat_map app]. repeat (constructor; auto).
Qed.

End TripleFilters.


Lemma later_linears_linear (n : nat) (self : MoleculeModel) (args : Args.t) :
  Forall (fun l => is_linear l = true) (later_linears n self args).
Proof.
  unfold later_linears. apply Forall_app. split; [|forall_cons].
  apply Forall_forall. intros l Hl. apply in_map_iff in Hl.
  now destruct Hl as (i & <- & _).
Qed.


Lemma head_layout_shape_ok (n : nat) (self : MoleculeModel) (args : Args.t) :
  Forall (fun m => elementwise m = true \/ is_linear m = true)
         (head_layout n self args).
Proof.
  unfold head_layout. destruct (Args.ffn_num_layers args =? 1).
  - repeat (apply Forall_cons; [cbn; auto|]). apply Forall_nil.
  - repeat (apply Forall_app; split);
      try (repeat (apply Forall_cons; [cbn; auto|]); apply Forall_nil).
    apply Forall_flat_map, Forall_forall. intros i _.
    repeat (apply Forall_cons; [cbn; auto|]). apply Forall_nil.
Qed.

Section WidthRuns.
Context {Input : Type} (enc_width : NNModule -> Input -> result Z).


Lemma widths_full (mode : bool) (n : nat) (self : MoleculeModel) (args : Args.t) :
  Args.ffn_num_layers args <> 1 ->
  Sequential_call (T := Widths Input enc_width) mode
    (head_layout n self args) (first_linear_dim args)
  = Ok (head_output_size self args).
Proof.
  intros HN.
  rewrite widths_linear_only by apply head_layout_shape_ok.
  rewrite head_layout_triples by exact HN.
  cbn [filter is_linear kind linear_at].
  rewrite filter_triples;
    [|reflexivity|reflexivity|apply later_linears_linear].
  unfold later_linears.
  cbn [Sequential_call module_call Widths]. unfold width_call at 1.
  cbn [kind linear_at]. rewrite Z.eqb_refl. cbn [rbind].
  rewrite Sequential_call_app, widths_run_linears. cbn [rbind].
  cbn [Sequential_call module_call Widths]. unfold width_call.
  cbn [kind linear_at]. rewrite !Z.eqb_refl. cbn [rbind].
  now rewrite Z.eqb_refl.
Qed.

End WidthRuns.



(** ** The sigmoid on numbers *)

(** A one-layer classifier whose encoder gives [0; 2] and whose other
    modules hand their input on: out of training mode the output is the
    sigmoid of each element, in training mode it is [0; 2] itself, with an
    element above 1. *)
Example forward_values_example :
  let enc := fun (_ : bool) (_ : NNModule) (_ : unit) => Ok [0%R; 2%R] in
  let call := fun (_ : bool) (_ : NNModule) (t : list R) => Ok t in
  let m := fst (fst (build_model one_layer_args empty_world)) in
  forward (T := Values unit enc call) (train false m) tt
  = Ok [sigmoid_fn 0; sigmoid_fn 2]
  /\ forward (T := Values unit enc call) (train true m) tt = Ok [0%R; 2%R]
  /\ forward (T := Values unit enc call)
       (train false (set_use_last_hidden false m)) tt = Ok [0%R; 2%R]
  /\ ~ (2 <= 1)%R.
Proof.
  cbv zeta. rewrite build_model_run. cbn [fst].
  repeat split; try reflexivity. lra.
Qed.

(** ** Layer counts of three and below *)

(** X3. Every layer count other than 1 that does not exceed 3 (2 and 3, but
    also 0 and the negative ones) builds the same head of eight modules with
    three linear transforms: the loop over [range(N - 3)] makes no round. *)
Theorem create_ffn_at_most_three (self : MoleculeModel) (args : Args.t) (w : World) :
  Args.ffn_num_layers args <> 1 ->
  Args.ffn_num_layers args <= 3 ->
  exists s,
    ffn (fst (create_ffn self args w)) = Some s
    /\ map kind s
       = [Dropout (Args.dropout args);
          Linear (first_linear_dim args) (Args.ffn_hidden_size args);
          Activation (Args.activation args); Dropout (Args.dropout args);
          Linear (Args.ffn_hidden_size args) (Args.last_hidden_size args);
          Activation (Args.activation args); Dropout (Args.dropout args);
          Linear (Args.last_hidden_size args) (head_output_size self args)]
    /\ map oid s
       = [next_id w; next_id w + 2; S (next_id w); next_id w;
          next_id w + 3; S (next_id w); next_id w; next_id w + 4]%nat.
Proof.
  intros H1 H3. exists (head_layout (next_id w) self args).
  split; [apply create_ffn_head|].
  unfold head_layout. apply Z.eqb_neq in H1. rewrite H1.
  replace (Z.to_nat (Args.ffn_num_layers args - 3)) with 0%nat by lia.
  cbn. rewrite !Nat.add_0_r. split; reflexivity.
Qed.

Lemma create_ffn_at_most_three_witness :
  Args.ffn_num_layers zero_layer_args <> 1
  /\ Args.ffn_num_layers zero_layer_args <= 3
  /\ exists s,
       ffn (fst (create_ffn (fst (__init__ false false empty_world))
                            zero_layer_args empty_world)) = Some s
       /\ map kind s
          = [Dropout 0; Linear 4 5; Activation "ReLU"; Dropout 0; Linear 5 6;
             Activation "ReLU"; Dropout 0; Linear 6 2].
Proof.
  split; [discriminate|]. split; [discriminate|].
  destruct (create_ffn_at_most_three (fst (__init__ false false empty_world))
              zero_layer_args empty_world ltac:(discriminate)
              ltac:(discriminate))
    as (s & Hs & Hk & _).
  exists s. split; [exact Hs|exact Hk].
Defined.

(** ** Which objects a head shares *)

Lemma head_layout_linears (n : nat) (self : MoleculeModel) (args : Args.t) :
  Args.ffn_num_layers args <> 1 ->
  filter is_linear (head_layout n self args)
  = linear_at (n + 2) (first_linear_dim args) (Args.ffn_hidden_size args)
    :: later_linears n self args.
Proof.
  intros HN. rewrite head_layout_triples by exact HN.
  cbn [filter is_linear kind linear_at].
  now rewrite filter_triples;
    [|reflexivity|reflexivity|apply later_linears_linear].
Qed.

(** X4. In every head [create_ffn] builds, each module that is not a linear
    transform is the one dropout object or the one activation object, the
    linear transforms are pairwise distinct objects made after those two,
    and the activation is requested exactly once, also for a one-layer head,
    which does not hold it. *)
Theorem create_ffn_shared_objects (self : MoleculeModel) (args : Args.t) (w : World) :
  exists s,
    ffn (fst (create_ffn self args w)) = Some s
    /\ (forall m, In m s -> is_linear m = false ->
        m = {| oid := next_id w; kind := Dropout (Args.dropout args) |}
        \/ m = {| oid := S (next_id w);
                  kind := Activation (Args.activation args) |})
    /\ NoDup (map oid (filter is_linear s))
    /\ (forall l, In l s -> is_linear l = true -> (S (next_id w) < oid l)%nat)
    /\ trace (snd (create_ffn self args w))
       = trace w ++ [Call_get_activation_function (Args.activation args)]
    /\ (Args.ffn_num_layers args = 1 ->
        forall m, In m s -> kind m <> Activation (Args.activation args)).
Proof.
  exists (head_layout (next_id w) self args).
  rewrite create_ffn_run. cbn [fst snd ffn set_ffn trace].
  split; [reflexivity|].
  destruct (Z.eq_dec (Args.ffn_num_layers args) 1) as [H1|H1].
  - unfold head_layout. rewrite H1. cbn [Z.eqb Pos.eqb].
    split; [|split; [|split; [|split; [reflexivity|]]]].
    + intros m [<-|[<-|[]]] Hl; [now left|discriminate].
    + cbn. repeat constructor; cbn; intuition.
    + intros l [<-|[<-|[]]] Hl; [discriminate|cbn; lia].
    + intros _ m [<-|[<-|[]]]; discriminate.
  - assert (Hlin := head_layout_linears (next_id w) self args H1).
    assert (Hoids : map oid (filter is_linear (head_layout (next_id w) self args))
                    = seq (next_id w + 2)
                          (Z.to_nat (Args.ffn_num_layers args - 3) + 3)).
    { rewrite Hlin. cbn [map oid linear_at]. rewrite later_linears_oids.
      replace (Z.to_nat (Args.ffn_num_layers args - 3) + 3)%nat
        with (S (Z.to_nat (Args.ffn_num_layers args - 3) + 2)) by lia.
      cbn [seq]. repeat f_equal; lia. }
    split; [|split; [|split; [|split; [reflexivity|]]]].
    + rewrite head_layout_triples by exact H1.
      intros m [<-|[<-|Hin]] Hl; [now left|discriminate|].
      apply in_flat_map in Hin. destruct Hin as (l & Hl' & [<-|[<-|[<-|[]]]]).
      * now right.
      * now left.
      * pose proof (later_linears_linear (next_id w) self args) as Hall.
        rewrite Forall_forall in Hall. rewrite (Hall _ Hl') in Hl.
        discriminate.
    + rewrite Hoids. apply seq_NoDup.
    + intros l Hin Hl.
      assert (Hf : In l (filter is_linear (head_layout (next_id w) self args)))
        by (apply filter_In; auto).
      apply (in_map oid) in Hf. rewrite Hoids in Hf. apply in_seq in Hf. lia.
    + intros E. contradiction.
Qed.

(** ** Calling a model that is not assembled yet *)

(** X5. [forward] looks up the head before the encoder.  On a model straight
    from the constructor, and on one that has its encoder only, it raises
    the attribute error for [ffn]; on one that has its head only it raises
    the attribute error for [encoder]; in each case before any module is
    called, whatever the mode and the full-output flag. *)
Theorem forward_before_assembly
    (c conf mode full : bool) (args : Args.t) (w w1 : World)
    (Input Tensor : Type) (T : Torch Input Tensor) (x : Input) :
  let m0 := fst (__init__ c conf w) in
  let toggled := fun m => train mode (set_use_last_hidden full m) in
  forward (toggled m0) x = AttributeError "ffn"
  /\ forward (toggled (fst (create_encoder m0 args w1))) x
     = AttributeError "ffn"
  /\ forward (toggled (fst (create_ffn m0 args w1))) x
     = AttributeError "encoder"
  /\ exists e s,
       forward_ffn
         (toggled (fst (create_ffn (fst (create_encoder m0 args w1)) args
                                   (snd (create_encoder m0 args w1)))))
       = Ok s
       /\ encoder
            (toggled (fst (create_ffn (fst (create_encoder m0 args w1)) args
                                      (snd (create_encoder m0 args w1)))))
          = Some e.
Proof.
  cbv zeta. split; [|split; [|split]].
  - now destruct c.
  - now destruct c.
  - rewrite create_ffn_run. unfold forward, forward_ffn.
    destruct c, full; reflexivity.
  - rewrite create_ffn_run. unfold forward_ffn.
    destruct c, full; cbn; eexists _, _; split; reflexivity.
Qed.

(** ** Widths of the full head, and the width it rejects *)

Section HeadWidths.
Context {Input : Type} (enc_width : NNModule -> Input -> result Z).

Lemma widths_full_all (mode : bool) (n : nat) (self : MoleculeModel)
    (args : Args.t) :
  Sequential_call (T := Widths Input enc_width) mode
    (head_layout n self args) (first_linear_dim args)
  = Ok (head_output_size self args).
Proof.
  destruct (Z.eq_dec (Args.ffn_num_layers args) 1) as [H1|H1];
    [|now apply widths_full].
  unfold head_layout. rewrite H1. cbn [Z.eqb Pos.eqb].
  cbn [Sequential_call module_call Widths]. unfold width_call.
  cbn [kind linear_at rbind]. now rewrite Z.eqb_refl.
Qed.

(** A network that starts with the dropout and the first linear transform
    raises on every width but the input width. *)
Lemma widths_reject (mode : bool) (d : NNModule) (id : nat) (i o wd : Z)
    (rest : list NNModule) :
  elementwise d = true -> wd <> i ->
  Sequential_call (T := Widths Input enc_width) mode
    (d :: linear_at id i o :: rest) wd
  = RuntimeError.
Proof.
  intros Hd Hne. cbn [Sequential_call module_call Widths].
  unfold width_call at 1. unfold elementwise in Hd.
  destruct (kind d); try discriminate; cbn [rbind];
    unfold width_call at 1; cbn [kind linear_at];
    apply Z.eqb_neq in Hne; now rewrite Hne.
Qed.

End HeadWidths.

Lemma head_layout_starts (n : nat) (self : MoleculeModel) (args : Args.t) :
  exists o rest,
    head_layout n self args
    = {| oid := n; kind := Dropout (Args.dropout args) |}
      :: linear_at (n + 2) (first_linear_dim args) o :: rest.
Proof.
  unfold head_layout. destruct (Args.ffn_num_layers args =? 1);
    eexists _, _; reflexivity.
Qed.

(** X6. For every configuration and in either mode, when the encoder
    produces the input width of the head (the hidden size, plus the feature
    width when features are used), the full forward pass of the model
    [build_model] returns raises nothing and returns the number of tasks,
    doubled exactly when the confidence setting is ["nn"]: the linear
    transforms of a head always fit one another. *)
Theorem full_forward_width (args : Args.t) (w : World) (mode : bool)
    (Input : Type) (enc_width : NNModule -> Input -> result Z) (x : Input) :
  let m := train mode (fst (fst (build_model args w))) in
  (e <~ getattr "encoder" (encoder m) ;; enc_width e x)
  = Ok (if Args.use_input_features args
        then Args.hidden_size args + Args.features_dim args
        else Args.hidden_size args) ->
  forward (T := Widths Input enc_width) m x
  = Ok (if py_eq (Args.confidence args) "nn"
        then Args.num_tasks args * 2
        else Args.num_tasks args).
Proof.
  cbv zeta. rewrite build_model_run. cbn [fst].
  set (args' := Args.set_output_size (Args.num_tasks args) args).
  set (b := built_model (next_id w) args).
  assert (Hffn : exists n, ffn b = Some (head_layout n b args'))
    by (eexists; reflexivity).
  destruct Hffn as [n Hffn].
  assert (Henc : exists e, encoder b = Some e) by (eexists; reflexivity).
  destruct Henc as [e He].
  assert (Hu : use_last_hidden b = true) by reflexivity.
  cbn [encoder train]. rewrite He. cbn [getattr rbind]. intros Hw.
  unfold forward, forward_ffn.
  cbn [ffn encoder training use_last_hidden train classification sigmoid].
  rewrite Hffn, He, Hu. cbn [getattr rbind encoder_call Widths]. rewrite Hw.
  cbn [rbind].
  change (if Args.use_input_features args
          then Args.hidden_size args + Args.features_dim args
          else Args.hidden_size args) with (first_linear_dim args').
  rewrite widths_full_all. cbn [rbind].
  assert (Hout : head_output_size b args'
                 = if py_eq (Args.confidence args) "nn"
                   then Args.num_tasks args * 2
                   else Args.num_tasks args) by reflexivity.
  rewrite Hout.
  destruct (classification b && negb mode && true) eqn:Et; [|reflexivity].
  assert (Hs : sigmoid b = Some {| oid := next_id w; kind := Sigmoid |}).
  { apply andb_prop in Et. destruct Et as [Et _].
    apply andb_prop in Et. destruct Et as [Ec _].
    unfold b, built_model in *. cbn in *. now rewrite Ec. }
  rewrite Hs. reflexivity.
Qed.

Lemma full_forward_width_witness :
  forward (T := Widths unit (fun _ _ => Ok 7))
    (train false (fst (fst (build_model three_layer_args empty_world)))) tt
  = Ok 4.
Proof.
  exact (full_forward_width three_layer_args empty_world false unit
           (fun _ _ => Ok 7) tt eq_refl).
Defined.

(** X7. When the encoder produces any other width, the forward pass raises
    the dimension error of the first linear transform: with the full head
    for every configuration, and with the full-output flag cleared for every
    layer count but 1 (where no linear transform is left to raise it). *)
Theorem forward_width_mismatch (args : Args.t) (w : World) (mode full : bool)
    (Input : Type) (enc_width : NNModule -> Input -> result Z) (x : Input)
    (wd : Z) :
  let m := train mode
             (set_use_last_hidden full (fst (fst (build_model args w)))) in
  full = true \/ Args.ffn_num_layers args <> 1 ->
  (e <~ getattr "encoder" (encoder m) ;; enc_width e x) = Ok wd ->
  wd <> (if Args.use_input_features args
         then Args.hidden_size args + Args.features_dim args
         else Args.hidden_size args) ->
  forward (T := Widths Input enc_width) m x = RuntimeError.
Proof.
  cbv zeta. rewrite build_model_run. cbn [fst].
  set (args' := Args.set_output_size (Args.num_tasks args) args).
  set (b := built_model (next_id w) args).
  assert (Hffn : exists n, ffn b = Some (head_layout n b args'))
    by (eexists; reflexivity).
  destruct Hffn as [n Hffn].
  assert (Henc : exists e, encoder b = Some e) by (eexists; reflexivity).
  destruct Henc as [e He].
  cbn [encoder train set_use_last_hidden]. rewrite He. cbn [getattr rbind].
  intros Hcase Hw Hne.
  change (if Args.use_input_features args
          then Args.hidden_size args + Args.features_dim args
          else Args.hidden_size args) with (first_linear_dim args') in Hne.
  assert (Hrun : exists ran,
             forward_ffn (train mode (set_use_last_hidden full b)) = Ok ran
             /\ Sequential_call (T := Widths Input enc_width) mode ran wd
                = RuntimeError).
  { unfold forward_ffn. cbn [ffn train set_use_last_hidden use_last_hidden].
    rewrite Hffn. cbn [getattr rbind].
    eexists. split; [reflexivity|].
    destruct full.
    - destruct (head_layout_starts n b args') as (o & rest & ->).
      now apply widths_reject.
    - assert (H1 : Args.ffn_num_layers args' <> 1)
        by (destruct Hcase as [Hc|Hc]; [discriminate|exact Hc]).
      unfold nn_Sequential. rewrite head_layout_children by exact H1.
      unfold later_linears. cbn [app].
      match goal with
      | |- context [removelast (?d :: ?l :: ?a :: ?r ++ ?t)] =>
          assert (Hr : removelast (d :: l :: a :: r ++ t)
                       = d :: l :: removelast (a :: r ++ t))
            by reflexivity;
          rewrite Hr
      end.
      now apply widths_reject. }
  destruct Hrun as (ran & Hran & Hcall).
  unfold forward. rewrite Hran.
  cbn [rbind encoder train set_use_last_hidden training]. rewrite He.
  cbn [getattr rbind encoder_call Widths]. rewrite Hw. cbn [rbind].
  rewrite Hcall. reflexivity.
Qed.

Lemma forward_width_mismatch_witness :
  forward (T := Widths unit (fun _ _ => Ok 8))
    (train false (set_use_last_hidden false
       (fst (fst (build_model three_layer_args empty_world))))) tt
  = RuntimeError.
Proof.
  apply (forward_width_mismatch three_layer_args empty_world false false unit
           (fun _ _ => Ok 8) tt 8).
  - right. discriminate.
  - reflexivity.
  - discriminate.
Defined.

(** ** The network run with the flag cleared, in general *)

Lemma map_const_seq {A} (f : nat -> A) (c : A) (k : nat) :
  (forall i, f i = c) -> forall s, map f (seq s k) = repeat c k.
Proof.
  intros Hf. induction k as [|k IH]; intros s; cbn; [reflexivity|].
  now rewrite Hf, IH.
Qed.

(** X8. With the full-output flag cleared and a layer count other than 1,
    the network [forward] runs holds every object of the head once, the
    final linear transform left out: dropout, first linear transform,
    activation, and then the remaining linear transforms back to back, with
    no activation and no dropout between them.  The output is what this
    network returns on the encoder's output, in either mode. *)
Theorem truncated_network (args : Args.t) (w : World) (mode : bool) :
  Args.ffn_num_layers args <> 1 ->
  let m := train mode
             (set_use_last_hidden false (fst (fst (build_model args w)))) in
  exists e ran,
    encoder m = Some e
    /\ forward_ffn m = Ok ran
    /\ map kind ran
       = [Dropout (Args.dropout args);
          Linear (first_linear_dim args) (Args.ffn_hidden_size args);
          Activation (Args.activation args)]
         ++ repeat (Linear (Args.ffn_hidden_size args)
                           (Args.ffn_hidden_size args))
                   (Z.to_nat (Args.ffn_num_layers args - 3))
         ++ [Linear (Args.ffn_hidden_size args) (Args.last_hidden_size args)]
    /\ NoDup (map oid ran)
    /\ forall (Input Tensor : Type) (T : Torch Input Tensor) (x : Input),
         forward m x
         = (hidden <~ encoder_call mode e x ;;
            Sequential_call mode ran hidden).
Proof.
  intros HN. cbv zeta. rewrite build_model_run. cbn [fst].
  set (args' := Args.set_output_size (Args.num_tasks args) args).
  assert (HN' : Args.ffn_num_layers args' <> 1) by exact HN.
  set (b := built_model (next_id w) args).
  assert (Hffn : exists n, ffn b = Some (head_layout n b args'))
    by (eexists; reflexivity).
  destruct Hffn as [n Hffn].
  assert (Henc : exists e, encoder b = Some e) by (eexists; reflexivity).
  destruct Henc as [e He].
  set (h := Args.ffn_hidden_size args).
  set (k := Z.to_nat (Args.ffn_num_layers args - 3)).
  set (ran := [{| oid := n; kind := Dropout (Args.dropout args) |};
               linear_at (n + 2) (first_linear_dim args) h;
               {| oid := S n; kind := Activation (Args.activation args) |}]
              ++ map (fun i => linear_at i h h) (seq (n + 3) k)
              ++ [linear_at (n + 3 + k) h (Args.last_hidden_size args)]).
  assert (Hran : forward_ffn (train mode (set_use_last_hidden false b))
                 = Ok ran).
  { unfold forward_ffn. cbn [ffn train set_use_last_hidden use_last_hidden].
    rewrite Hffn. cbn [getattr rbind]. unfold nn_Sequential.
    rewrite head_layout_children by exact HN'. unfold later_linears.
    change (Args.ffn_hidden_size args') with h.
    change (Z.to_nat (Args.ffn_num_layers args' - 3)) with k.
    match goal with
    | |- Ok (removelast (?p ++ ?q ++ [?y; ?z])) = _ =>
        change (p ++ q ++ [y; z]) with (p ++ q ++ [y] ++ [z]);
        rewrite !app_assoc, removelast_snoc, <- !app_assoc
    end.
    reflexivity. }
  exists e, ran.
  split; [exact He|]. split; [exact Hran|]. split; [|split].
  - unfold ran. rewrite !map_app, map_map. cbn [map kind linear_at].
    now rewrite (map_const_seq _ (Linear h h)) by reflexivity.
  - unfold ran. rewrite !map_app, map_map. cbn [map oid linear_at app].
    rewrite map_id.
    assert (Hseq : seq (n + 3) k ++ [(n + 3 + k)%nat] = seq (n + 3) (k + 1))
      by (rewrite seq_app; reflexivity).
    rewrite Hseq.
    repeat (apply NoDup_cons;
            [cbn [In]; rewrite in_seq; lia|]).
    apply seq_NoDup.
  - intros Input Tensor T x.
    rewrite forward_truncated by reflexivity.
    unfold head_output. rewrite Hran.
    cbn [rbind encoder train set_use_last_hidden training]. rewrite He.
    reflexivity.
Qed.

Lemma truncated_network_witness :
  Args.ffn_num_layers small_args <> 1
  /\ exists ran,
       forward_ffn (train false (set_use_last_hidden false
                      (fst (fst (build_model small_args empty_world)))))
       = Ok ran
       /\ map kind ran
          = [Dropout 0; Linear 1 1; Activation "ReLU";
             Linear 1 1; Linear 1 1].
Proof.
  split; [discriminate|].
  destruct (truncated_network small_args empty_world false
              ltac:(discriminate))
    as (e & ran & _ & Hran & Hk & _).
  exists ran. split; [exact Hran|exact Hk].
Defined.

(** ** Small heads out of training mode *)

(** X9. For a layer count of at most 3 (and not 1), out of training mode and
    with a dropout that then hands its input on, clearing the full-output
    flag returns what the full head holds right after its second linear
    transform, the one that writes the last hidden width: the modules the
    enumeration leaves out are a dropout only. *)
Theorem truncated_small_head_eval (args : Args.t) (w : World)
    (Input Tensor : Type) (T : Torch Input Tensor) (x : Input) :
  Args.ffn_num_layers args <> 1 ->
  Args.ffn_num_layers args <= 3 ->
  (forall d t, kind d = Dropout (Args.dropout args) ->
               module_call false d t = Ok t) ->
  let m := train false
             (set_use_last_hidden false (fst (fst (build_model args w)))) in
  exists e head,
    encoder m = Some e /\ ffn m = Some head
    /\ map kind (firstn 5 head)
       = [Dropout (Args.dropout args);
          Linear (first_linear_dim args) (Args.ffn_hidden_size args);
          Activation (Args.activation args); Dropout (Args.dropout args);
          Linear (Args.ffn_hidden_size args) (Args.last_hidden_size args)]
    /\ forward m x
       = (hidden <~ encoder_call false e x ;;
          Sequential_call false (firstn 5 head) hidden).
Proof.
  intros H1 H3 Hd. cbv zeta. rewrite build_model_run. cbn [fst].
  set (args' := Args.set_output_size (Args.num_tasks args) args).
  assert (H1' : Args.ffn_num_layers args' <> 1) by exact H1.
  set (b := built_model (next_id w) args).
  assert (Hffn : exists n, ffn b = Some (head_layout n b args'))
    by (eexists; reflexivity).
  destruct Hffn as [n Hffn].
  assert (Henc : exists e, encoder b = Some e) by (eexists; reflexivity).
  destruct Henc as [e He].
  assert (Hk : Z.to_nat (Args.ffn_num_layers args' - 3) = 0%nat)
    by (change (Args.ffn_num_layers args') with (Args.ffn_num_layers args); lia).
  exists e, (head_layout n b args').
  split; [exact He|]. split; [exact Hffn|].
  assert (Hhead : firstn 5 (head_layout n b args')
                  = [{| oid := n; kind := Dropout (Args.dropout args) |};
                     linear_at (n + 2) (first_linear_dim args)
                               (Args.ffn_hidden_size args);
                     {| oid := S n; kind := Activation (Args.activation args) |};
                     {| oid := n; kind := Dropout (Args.dropout args) |};
                     linear_at (n + 3 + 0) (Args.ffn_hidden_size args)
                               (Args.last_hidden_size args)]).
  { unfold head_layout. apply Z.eqb_neq in H1'. rewrite H1', Hk. reflexivity. }
  split; [now rewrite Hhead|].
  rewrite forward_truncated by reflexivity.
  unfold head_output, forward_ffn.
  cbn [ffn encoder training use_last_hidden train set_use_last_hidden].
  rewrite Hffn, He. cbn [getattr rbind]. unfold nn_Sequential.
  rewrite head_layout_children by exact H1'. unfold later_linears.
  rewrite Hk, Hhead.
  destruct (encoder_call false e x) as [hid| |]; cbn [rbind]; try reflexivity.
  cbn [map seq app removelast Sequential_call].
  change (Args.dropout args') with (Args.dropout args).
  change (Args.activation args') with (Args.activation args).
  change (Args.ffn_hidden_size args') with (Args.ffn_hidden_size args).
  change (Args.last_hidden_size args') with (Args.last_hidden_size args).
  change (first_linear_dim args') with (first_linear_dim args).
  rewrite (Hd {| oid := n; kind := Dropout (Args.dropout args) |} hid eq_refl).
  cbn [rbind].
  destruct (module_call false _ hid) as [y1| |]; cbn [rbind]; try reflexivity.
  destruct (module_call false _ y1) as [y2| |]; cbn [rbind]; try reflexivity.
  rewrite (Hd {| oid := n; kind := Dropout (Args.dropout args) |} y2 eq_refl).
  reflexivity.
Qed.

Lemma truncated_small_head_eval_witness :
  Args.ffn_num_layers three_layer_args <> 1
  /\ Args.ffn_num_layers three_layer_args <= 3
  /\ forward (T := Scalars)
       (train false (set_use_last_hidden false
          (fst (fst (build_model three_layer_args empty_world))))) (-3)
     = Ok (-3).
Proof.
  split; [discriminate|]. split; [discriminate|].
  destruct (truncated_small_head_eval three_layer_args empty_world Z Z Scalars
              (-3) ltac:(discriminate) ltac:(discriminate))
    as (e & head & He & Hf & _ & Hfw).
  - intros d t Hk. cbn. now rewrite Hk.
  - rewrite Hfw. injection He as <-. injection Hf as <-. reflexivity.
Defined.

(** ** Fresh objects *)

Lemma head_layout_oid_bounds (n : nat) (self : MoleculeModel) (args : Args.t) :
  Forall (fun m => (n <= oid m < n + ffn_allocations args)%nat)
         (head_layout n self args).
Proof.
  unfold head_layout, ffn_allocations.
  destruct (Args.ffn_num_layers args =? 1).
  - forall_cons.
  - repeat (apply Forall_app; split); try forall_cons.
    apply Forall_flat_map, Forall_forall. intros i Hi.
    apply in_seq in Hi. forall_cons.
Qed.

Lemma built_model_oid_bounds (n : nat) (args : Args.t) :
  Forall (fun m =>
            (n <= oid m
             < (if String.eqb (Args.dataset_type args) "classification"
                then 2 else 1) + n
               + ffn_allocations
                   (Args.set_output_size (Args.num_tasks args) args))%nat)
         (modules_of (built_model n args)).
Proof.
  unfold modules_of, built_model.
  cbn [sigmoid encoder ffn set_ffn option_list].
  destruct (String.eqb (Args.dataset_type args) "classification");
    cbn [option_list app];
    repeat (apply Forall_cons; [cbn; lia|]);
    (eapply Forall_impl; [|apply head_layout_oid_bounds]);
    cbn; intros m Hm; lia.
Qed.

(** X10. Every module object of a model [build_model] returns is new: its
    identity is at least the next free one before the call and below the
    next free one after it.  Two models built one after the other therefore
    share no module object, whatever the two configurations. *)
Theorem builds_share_no_object (args1 args2 : Args.t) (w : World) :
  let '(m1, _, w1) := build_model args1 w in
  let '(m2, _, w2) := build_model args2 w1 in
  Forall (fun x => (next_id w <= oid x < next_id w1)%nat) (modules_of m1)
  /\ Forall (fun y => (next_id w1 <= oid y < next_id w2)%nat) (modules_of m2)
  /\ forall x y, In x (modules_of m1) -> In y (modules_of m2) ->
                 oid x <> oid y.
Proof.
  rewrite build_model_run.
  match goal with
  | |- context [build_model args2 ?w1] => rewrite (build_model_run args2 w1)
  end.
  cbn [next_id].
  pose proof (built_model_oid_bounds (next_id w) args1) as B1.
  match goal with
  | |- context [built_model ?n args2] =>
      pose proof (built_model_oid_bounds n args2) as B2
  end.
  split; [exact B1|]. split; [exact B2|].
  intros x y Hx Hy.
  rewrite Forall_forall in B1, B2.
  specialize (B1 x Hx). specialize (B2 y Hy). lia.
Qed.

(** ** Building again from the configuration a build has written *)

Lemma interior_kinds (a d a' d' : NNModule) (h : Z) (k : nat) :
  kind a = kind a' -> kind d = kind d' ->
  forall s s',
    map kind (flat_map (fun i => [a; d; linear_at i h h]) (seq s k))
    = map kind (flat_map (fun i => [a'; d'; linear_at i h h]) (seq s' k)).
Proof.
  intros Ha Hd. induction k as [|k IH]; intros s s'; [reflexivity|].
  cbn [seq flat_map app map kind linear_at].
  now rewrite Ha, Hd, (IH (S s) (S s')).
Qed.

(** What the modules of a head are does not depend on the identities handed
    out, nor on the model beyond its confidence flag. *)
Lemma head_layout_kinds (n n' : nat) (self self' : MoleculeModel)
    (args : Args.t) :
  confidence self = confidence self' ->
  map kind (head_layout n self args) = map kind (head_layout n' self' args).
Proof.
  intros Hc. unfold head_layout, head_output_size. rewrite Hc.
  destruct (Args.ffn_num_layers args =? 1); [reflexivity|].
  rewrite !map_app. cbn [map kind linear_at].
  rewrite (interior_kinds
             {| oid := S n; kind := Activation (Args.activation args) |}
             {| oid := n; kind := Dropout (Args.dropout args) |}
             {| oid := S n'; kind := Activation (Args.activation args) |}
             {| oid := n'; kind := Dropout (Args.dropout args) |}
             _ _ eq_refl eq_refl (n + 3)%nat (n' + 3)%nat).
  reflexivity.
Qed.

(** X11. The write [build_model] makes to its configuration does not change
    what a later build gives: called again on the configuration the first
    call left, it leaves that configuration as it is and returns a model
    with the same classifier and confidence flags, an encoder made from the
    same configuration and a head of the same modules in the same order. *)
Theorem build_model_again (args : Args.t) (w : World) :
  let '(m1, args1, w1) := build_model args w in
  let '(m2, args2, _) := build_model args1 w1 in
  args2 = args1
  /\ classification m2 = classification m1
  /\ confidence m2 = confidence m1
  /\ option_map kind (encoder m2) = option_map kind (encoder m1)
  /\ option_map (map kind) (ffn m2) = option_map (map kind) (ffn m1)
  /\ use_last_hidden m2 = use_last_hidden m1.
Proof.
  rewrite build_model_run.
  match goal with
  | |- context [build_model ?a1 ?w1] => rewrite (build_model_run a1 w1)
  end.
  split; [reflexivity|]. split; [reflexivity|]. split; [reflexivity|].
  split; [reflexivity|]. split; [|reflexivity].
  unfold built_model. cbn [ffn set_ffn option_map]. f_equal.
  apply head_layout_kinds. reflexivity.
Qed.

(** ** Order of assembly *)

Lemma create_encoder_run (self : MoleculeModel) (args : Args.t) (w : World) :
  create_encoder self args w
  = (set_encoder {| oid := next_id w; kind := MPN args |} self,
     {| next_id := S (next_id w); trace := trace w ++ [Call_MPN args] |}).
Proof. reflexivity. Qed.

(** X12. [create_encoder] and [create_ffn] each set their own attribute and
    leave the rest of the model alone, so the two orders of assembly give
    the same encoder and the same head, module for module, and the flags the
    model had; a second [create_ffn] replaces the head, it adds nothing to
    it. *)
Theorem assembly_order (self : MoleculeModel) (args args2 : Args.t) (w : World) :
  let '(m1, w1) := create_encoder self args w in
  let '(enc_first, w2) := create_ffn m1 args w1 in
  let '(m1', w1') := create_ffn self args w in
  let '(ffn_first, _) := create_encoder m1' args w1' in
  let '(twice, _) := create_ffn enc_first args2 w2 in
  option_map kind (encoder enc_first) = Some (MPN args)
  /\ option_map kind (encoder ffn_first) = Some (MPN args)
  /\ option_map (map kind) (ffn enc_first)
     = option_map (map kind) (ffn ffn_first)
  /\ (classification enc_first, confidence enc_first, sigmoid enc_first,
      use_last_hidden enc_first, training enc_first)
     = (classification self, confidence self, sigmoid self,
        use_last_hidden self, training self)
  /\ (classification ffn_first, confidence ffn_first, sigmoid ffn_first,
      use_last_hidden ffn_first, training ffn_first)
     = (classification self, confidence self, sigmoid self,
        use_last_hidden self, training self)
  /\ encoder twice = encoder enc_first
  /\ option_map (map kind) (ffn twice)
     = option_map (map kind) (ffn (fst (create_ffn self args2 w))).
Proof.
  rewrite create_encoder_run, !create_ffn_run, create_encoder_run.
  cbn [encoder ffn set_encoder set_ffn option_map kind next_id
       classification confidence sigmoid use_last_hidden training fst].
  repeat split; try reflexivity; f_equal; apply head_layout_kinds;
    reflexivity.
Qed.
